(** * ESP-SPI-Flasher: the serial command processor of [src/main.cpp]

    A shallow embedding of the firmware's framer ([handleSerialMessage]),
    dispatcher ([handleData]) and command handlers, with the properties of
    the protocol description stated and settled against it.

    Conventions.
    - C++ integers are [Z] with the wrap-around written out ([wrap_u32] for
      [uint32_t], [wrap_s32] for [int] and [messagelen_t], [to_byte] for
      [byte]).
    - The globals of the sketch are the fields of one [Session] record that
      is passed explicitly.
    - Everything written to or done with [Serial] is appended, in order, to
      the [serial] trace of the session.
    - The flash driver, the MD5 builder and the base64 codec are libraries
      outside the sketch; they are interfaces (type classes) here.
    - A store outside the bounds of [receivedMessage] or [dataBuffer] is
      undefined behaviour in C++; the model records it in the ghost flag
      [memFault]. *)

From Stdlib Require Import ZArith Lia Bool String Ascii.
From stdpp Require Import base numbers list.

Local Open Scope string_scope.
Local Open Scope list_scope.
Local Open Scope Z_scope.

(** ** Machine integers *)

Definition wrap_u32 (z : Z) : Z := z mod 2 ^ 32.
Definition wrap_s32 (z : Z) : Z := (z + 2 ^ 31) mod 2 ^ 32 - 2 ^ 31.
Definition to_byte (z : Z) : Z := z mod 256.

Arguments wrap_u32 : simpl never.
Arguments wrap_s32 : simpl never.
Arguments to_byte : simpl never.

(** ** Constants (main.cpp, lines 5-8) *)

Definition DATA_CHUNK_SIZE : Z := 2048.
(** [(int)(DATA_CHUNK_SIZE / .75) + 5]: the quotient 2730.66.. is truncated
    by the cast. *)
Definition MESSAGE_MAX_SIZE : Z := DATA_CHUNK_SIZE * 100 / 75 + 5.
Definition INITIAL_SERIAL_BAUD_RATE : Z := 9600.

(** ** The pending command (main.cpp, line 13) *)

Inductive states : Set :=
  | NONE | SET_BAUD | SET_ERASE | SET_WRITE | SET_FILE_SIZE | RECV_FLASH_DATA
  | DO_ERASE | DO_FLASH | RESET_STATE | SEND_FLASH_INFO.

(** ** The serial port as a trace *)

(** What one [Serial.print] call is given: a text, or a number with its
    base. *)
Inductive tok : Set :=
  | TStr (s : string)
  | TDec (n : Z)
  | THex (n : Z).

Inductive event : Set :=
  | EPrint (t : tok)       (* Serial.print *)
  | EPrintln (t : tok)     (* Serial.println: ends the line *)
  | EFlush                 (* Serial.flush *)
  | EEnd                   (* Serial.end *)
  | EBegin (baud : Z)      (* Serial.begin *)
  | EDelay (ms : Z).       (* delay *)

(** The completed response lines of a trace: the tokens printed up to each
    [println]. *)
Fixpoint lines_from (cur : list tok) (tr : list event) : list (list tok) :=
  match tr with
  | [] => []
  | EPrint t :: tr' => lines_from (cur ++ [t]) tr'
  | EPrintln t :: tr' => (cur ++ [t]) :: lines_from [] tr'
  | _ :: tr' => lines_from cur tr'
  end.

Definition lines (tr : list event) : list (list tok) := lines_from [] tr.

(** The class of a response line is its first character:
    [!] error, [@] checksum, [#] information. *)
Definition line_tag (l : list tok) : option ascii :=
  match l with
  | TStr (String c _) :: _ => Some c
  | _ => None
  end.

Definition is_error_line (l : list tok) : bool :=
  match line_tag l with
  | Some c => Ascii.eqb c "!"%char
  | None => false
  end.

Definition is_checksum_line (l : list tok) : bool :=
  match line_tag l with
  | Some c => Ascii.eqb c "@"%char
  | None => false
  end.

(** How often the port was (re)opened, and at which rates. *)
Fixpoint begins (tr : list event) : list Z :=
  match tr with
  | [] => []
  | EBegin b :: tr' => b :: begins tr'
  | _ :: tr' => begins tr'
  end.

(** ** The collaborators *)

(** SPIMemory's [SPIFlash]: operations change the device, [error()] reads
    the status of the last one. *)
Class FlashDevice (Flash : Type) := {
  getCapacity : Flash -> Z;
  getJEDECID : Flash -> Z;
  getMaxPage : Flash -> Z;
  eraseBlock32K : Z -> Flash -> Flash;
  writeByteArray : Z -> list Z -> Flash -> Flash;
  flash_error : Flash -> Z
}.

(** [MD5Builder]: the hexadecimal digest of a byte sequence. *)
Class Digest := { md5_hex : list Z -> string }.

(** [base64.hpp]: the bytes that [decode_base64] stores into its output
    array; their number is its return value. *)
Class Codec := { decode_base64 : list Z -> list Z }.

(** ** The session: the globals of the sketch (main.cpp, lines 14, 42-57) *)

Record Session (Flash : Type) := mkSession {
  state : states;
  flash : Flash;
  flashSize : Z;
  currentFlashOffset : Z;
  shouldDoErase : bool;
  shouldDoWrite : bool;
  fileSize : Z;
  receivedMessage : list Z;
  messageLength : Z;
  currRecvDataPos : Z;
  dataNeedsHandling : bool;
  dataBuffer : list Z;
  dataLength : Z;
  serial : list event;
  memFault : bool
}.

Arguments mkSession {Flash}.
Arguments state {Flash}.
Arguments flash {Flash}.
Arguments flashSize {Flash}.
Arguments currentFlashOffset {Flash}.
Arguments shouldDoErase {Flash}.
Arguments shouldDoWrite {Flash}.
Arguments fileSize {Flash}.
Arguments receivedMessage {Flash}.
Arguments messageLength {Flash}.
Arguments currRecvDataPos {Flash}.
Arguments dataNeedsHandling {Flash}.
Arguments dataBuffer {Flash}.
Arguments dataLength {Flash}.
Arguments serial {Flash}.
Arguments memFault {Flash}.

Section Firmware.
Context {Flash : Type} {chip : FlashDevice Flash} {digest : Digest}
  {codec : Codec}.

Abbreviation Session := (Session Flash).

(** *** Assignments to single globals *)

Definition set_state (v : states) (s : Session) : Session :=
  mkSession v (flash s) (flashSize s) (currentFlashOffset s)
    (shouldDoErase s) (shouldDoWrite s) (fileSize s) (receivedMessage s)
    (messageLength s) (currRecvDataPos s) (dataNeedsHandling s)
    (dataBuffer s) (dataLength s) (serial s) (memFault s).

Definition set_flash (v : Flash) (s : Session) : Session :=
  mkSession (state s) v (flashSize s) (currentFlashOffset s)
    (shouldDoErase s) (shouldDoWrite s) (fileSize s) (receivedMessage s)
    (messageLength s) (currRecvDataPos s) (dataNeedsHandling s)
    (dataBuffer s) (dataLength s) (serial s) (memFault s).

Definition set_flashSize (v : Z) (s : Session) : Session :=
  mkSession (state s) (flash s) v (currentFlashOffset s)
    (shouldDoErase s) (shouldDoWrite s) (fileSize s) (receivedMessage s)
    (messageLength s) (currRecvDataPos s) (dataNeedsHandling s)
    (dataBuffer s) (dataLength s) (serial s) (memFault s).

Definition set_currentFlashOffset (v : Z) (s : Session) : Session :=
  mkSession (state s) (flash s) (flashSize s) v
    (shouldDoErase s) (shouldDoWrite s) (fileSize s) (receivedMessage s)
    (messageLength s) (currRecvDataPos s) (dataNeedsHandling s)
    (dataBuffer s) (dataLength s) (serial s) (memFault s).

Definition set_shouldDoErase (v : bool) (s : Session) : Session :=
  mkSession (state s) (flash s) (flashSize s) (currentFlashOffset s)
    v (shouldDoWrite s) (fileSize s) (receivedMessage s)
    (messageLength s) (currRecvDataPos s) (dataNeedsHandling s)
    (dataBuffer s) (dataLength s) (serial s) (memFault s).

Definition set_shouldDoWrite (v : bool) (s : Session) : Session :=
  mkSession (state s) (flash s) (flashSize s) (currentFlashOffset s)
    (shouldDoErase s) v (fileSize s) (receivedMessage s)
    (messageLength s) (currRecvDataPos s) (dataNeedsHandling s)
    (dataBuffer s) (dataLength s) (serial s) (memFault s).

Definition set_fileSize (v : Z) (s : Session) : Session :=
  mkSession (state s) (flash s) (flashSize s) (currentFlashOffset s)
    (shouldDoErase s) (shouldDoWrite s) v (receivedMessage s)
    (messageLength s) (currRecvDataPos s) (dataNeedsHandling s)
    (dataBuffer s) (dataLength s) (serial s) (memFault s).

Definition set_receivedMessage (v : list Z) (s : Session) : Session :=
  mkSession (state s) (flash s) (flashSize s) (currentFlashOffset s)
    (shouldDoErase s) (shouldDoWrite s) (fileSize s) v
    (messageLength s) (currRecvDataPos s) (dataNeedsHandling s)
    (dataBuffer s) (dataLength s) (serial s) (memFault s).

Definition set_messageLength (v : Z) (s : Session) : Session :=
  mkSession (state s) (flash s) (flashSize s) (currentFlashOffset s)
    (shouldDoErase s) (shouldDoWrite s) (fileSize s) (receivedMessage s)
    v (currRecvDataPos s) (dataNeedsHandling s)
    (dataBuffer s) (dataLength s) (serial s) (memFault s).

Definition set_currRecvDataPos (v : Z) (s : Session) : Session :=
  mkSession (state s) (flash s) (flashSize s) (currentFlashOffset s)
    (shouldDoErase s) (shouldDoWrite s) (fileSize s) (receivedMessage s)
    (messageLength s) v (dataNeedsHandling s)
    (dataBuffer s) (dataLength s) (serial s) (memFault s).

Definition set_dataNeedsHandling (v : bool) (s : Session) : Session :=
  mkSession (state s) (flash s) (flashSize s) (currentFlashOffset s)
    (shouldDoErase s) (shouldDoWrite s) (fileSize s) (receivedMessage s)
    (messageLength s) (currRecvDataPos s) v
    (dataBuffer s) (dataLength s) (serial s) (memFault s).

Definition set_dataBuffer (v : list Z) (s : Session) : Session :=
  mkSession (state s) (flash s) (flashSize s) (currentFlashOffset s)
    (shouldDoErase s) (shouldDoWrite s) (fileSize s) (receivedMessage s)
    (messageLength s) (currRecvDataPos s) (dataNeedsHandling s)
    v (dataLength s) (serial s) (memFault s).

Definition set_dataLength (v : Z) (s : Session) : Session :=
  mkSession (state s) (flash s) (flashSize s) (currentFlashOffset s)
    (shouldDoErase s) (shouldDoWrite s) (fileSize s) (receivedMessage s)
    (messageLength s) (currRecvDataPos s) (dataNeedsHandling s)
    (dataBuffer s) v (serial s) (memFault s).

Definition set_serial (v : list event) (s : Session) : Session :=
  mkSession (state s) (flash s) (flashSize s) (currentFlashOffset s)
    (shouldDoErase s) (shouldDoWrite s) (fileSize s) (receivedMessage s)
    (messageLength s) (currRecvDataPos s) (dataNeedsHandling s)
    (dataBuffer s) (dataLength s) v (memFault s).

Definition set_memFault (v : bool) (s : Session) : Session :=
  mkSession (state s) (flash s) (flashSize s) (currentFlashOffset s)
    (shouldDoErase s) (shouldDoWrite s) (fileSize s) (receivedMessage s)
    (messageLength s) (currRecvDataPos s) (dataNeedsHandling s)
    (dataBuffer s) (dataLength s) (serial s) v.

(** One more event on the serial port. *)
Definition emit (e : event) (s : Session) : Session :=
  set_serial (serial s ++ [e]) s.

(** *** setup (main.cpp, lines 60-67) and the state at power-on *)

(** Globals without an initialiser start at zero.  The wait for the port
    and [flash.begin()] leave no trace in the model. *)

Definition power_on (dev : Flash) : Session :=
  mkSession NONE dev 0 0 false false 0
    (replicate (Z.to_nat MESSAGE_MAX_SIZE) 0) 0 0 false
    (replicate (Z.to_nat DATA_CHUNK_SIZE) 0) 0 [] false.

Definition setup (dev : Flash) : Session :=
  let s := emit (EBegin INITIAL_SERIAL_BAUD_RATE) (power_on dev) in
  set_flashSize (wrap_u32 (getCapacity (flash s))) s.

(** *** resetState (main.cpp, lines 80-92) *)

Definition resetState (s : Session) : Session :=
  let s := emit (EDelay 1000) s in
  let s := emit EEnd s in
  let s := emit (EBegin INITIAL_SERIAL_BAUD_RATE) s in
  let s := set_state NONE s in
  let s := set_shouldDoErase false s in
  let s := set_shouldDoWrite false s in
  let s := set_fileSize 0 s in
  let s := set_currRecvDataPos 0 s in
  let s := set_messageLength 0 s in
  set_dataNeedsHandling false s.


(** *** handleSerialMessage (main.cpp, lines 95-131) *)

(** The value a character literal has in the [switch]. *)
Definition chr (c : ascii) : Z := Z.of_N (N_of_ascii c).

Definition endMarker : ascii := "010"%char.

(** [receivedMessage[i] = v]: inside the array the element is replaced; a
    store outside of it is recorded in [memFault]. *)
Definition store_receivedMessage (i v : Z) (s : Session) : Session :=
  if (0 <=? i) && (i <? MESSAGE_MAX_SIZE)
  then set_receivedMessage (<[Z.to_nat i := v]> (receivedMessage s)) s
  else set_memFault true s.

Definition overflow_message : string :=
  "!ERROR: Message overflowed buffer; did you mean to send '&' (DO_FLASH)?".

(** One turn of the [while] loop: the [switch] on the byte just read. *)
Definition handleSerialByte (rcvData : Z) (s : Session) : Session :=
  if rcvData =? -1 then s
  else if rcvData =? chr "!" then set_state SET_BAUD s
  else if rcvData =? chr "@" then set_state SET_ERASE s
  else if rcvData =? chr "#" then set_state SET_WRITE s
  else if rcvData =? chr "$" then set_state SET_FILE_SIZE s
  else if rcvData =? chr "%" then set_state RECV_FLASH_DATA s
  else if rcvData =? chr "^" then set_state DO_ERASE s
  else if rcvData =? chr "&" then set_state DO_FLASH s
  else if rcvData =? chr "*" then set_state RESET_STATE s
  else if rcvData =? chr "(" then set_state SEND_FLASH_INFO s
  else if rcvData =? chr endMarker then
    let s := set_messageLength (currRecvDataPos s) s in
    let s := set_currRecvDataPos 0 s in
    set_dataNeedsHandling true s
  else
    let s := store_receivedMessage (currRecvDataPos s) (to_byte rcvData) s in
    let s := set_currRecvDataPos (wrap_s32 (currRecvDataPos s + 1)) s in
    if MESSAGE_MAX_SIZE <? currRecvDataPos s
    then resetState (emit (EPrintln (TStr overflow_message)) s)
    else s.

(** The loop runs while bytes are available: [avail] is what the successive
    [Serial.read] calls return. *)
Fixpoint handleSerialMessage (avail : list Z) (s : Session) : Session :=
  match avail with
  | [] => s
  | rcvData :: rest => handleSerialMessage rest (handleSerialByte rcvData s)
  end.

(** *** byteArrayToInt (main.cpp, lines 282-291) *)

(** The [for] loop from index [i] on, over the elements still to be read.
    [byteArray[i] << (i * 8)] is an [int]; [out += ..] converts it to
    [uint32_t].  For [i >= 4] the shift count reaches the width of [int]:
    the model shifts in [Z] and truncates, so such bytes add nothing. *)
Fixpoint byteArrayToInt_from (i out : Z) (elems : list Z) : Z :=
  match elems with
  | [] => out
  | b :: rest =>
      byteArrayToInt_from (i + 1)
        (wrap_u32 (out + wrap_s32 (Z.shiftl b (i * 8)))) rest
  end.

Definition byteArrayToInt (byteArray : list Z) (length : Z) : Z :=
  if length =? 0 then 0
  else byteArrayToInt_from 0 0 (take (Z.to_nat length) byteArray).

(** *** b64ToBytes and b64ToInt (main.cpp, lines 305-313) *)

(** [decode_base64(receivedMessage, messageLength, dataBuffer)]: the codec
    reads the first [messageLength] bytes of [receivedMessage] and stores the
    decoded bytes from [dataBuffer[0]] on.  More than [DATA_CHUNK_SIZE] of
    them run over the end of the array: the model keeps those in the memory
    after it and raises [memFault]. *)
Definition message (s : Session) : list Z :=
  take (Z.to_nat (wrap_u32 (messageLength s))) (receivedMessage s).

Definition decode_message (s : Session) : list Z * Session :=
  let out := decode_base64 (message s) in
  let s := set_dataBuffer (out ++ drop (length out) (dataBuffer s)) s in
  let s :=
    if DATA_CHUNK_SIZE <? Z.of_nat (length out)
    then set_memFault true s else s in
  (out, s).

Definition b64ToBytes (s : Session) : Z * Session :=
  let (out, s) := decode_message s in
  (wrap_u32 (Z.of_nat (length out)), s).

Definition b64ToInt (s : Session) : Z * Session :=
  let (outLength, s) := b64ToBytes s in
  (byteArrayToInt (dataBuffer s) (wrap_s32 outLength), s).

(** *** md5 (main.cpp, lines 268-279) *)

Definition md5 (byteArray : list Z) (len : Z) : string :=
  md5_hex (take (Z.to_nat len) byteArray).

(** *** handleGetFlashInfo (main.cpp, lines 166-178) *)

Definition handleGetFlashInfo (s : Session) : Session :=
  let JEDEC := wrap_u32 (getJEDECID (flash s)) in
  if JEDEC =? 0 then
    emit (EPrintln (TStr "!ERROR: Connection to flash failed; check wiring.")) s
  else
    let s := emit (EPrint (TStr "#JEDEC ID: 0x")) s in
    let s := emit (EPrintln (THex JEDEC)) s in
    let s := emit (EPrint (TStr "#Man ID: 0x")) s in
    let s := emit (EPrintln (THex (to_byte (Z.shiftr JEDEC 16)))) s in
    let s := emit (EPrint (TStr "#Memory ID: 0x")) s in
    let s := emit (EPrintln (THex (to_byte (Z.shiftr JEDEC 8)))) s in
    let s := emit (EPrint (TStr "#Capacity: ")) s in
    let s := emit (EPrintln (TDec (flashSize s))) s in
    let s := emit (EPrint (TStr "#Max Pages: ")) s in
    emit (EPrintln (TDec (getMaxPage (flash s)))) s.

(** *** handleSetBaud (main.cpp, lines 181-195) *)

Definition handleSetBaud (s : Session) : Session :=
  let (baudRate, s) := b64ToInt s in
  if 921600 <? baudRate then
    let s := emit (EPrint (TStr "!ERROR: Invalid baudrate '")) s in
    let s := emit (EPrint (THex baudRate)) s in
    let s := emit (EPrintln (TStr "'")) s in
    resetState s
  else
    let s := emit EEnd s in
    emit (EBegin baudRate) s.

(** *** handleSetErase, handleSetWrite (main.cpp, lines 197-198) *)

Definition handleSetErase (s : Session) : Session :=
  let (v, s) := b64ToInt s in set_shouldDoErase (negb (v =? 0)) s.

Definition handleSetWrite (s : Session) : Session :=
  let (v, s) := b64ToInt s in set_shouldDoWrite (negb (v =? 0)) s.

(** *** handleSetFileSize (main.cpp, lines 200-210) *)

Definition handleSetFileSize (s : Session) : Session :=
  let (readValue, s) := b64ToInt s in
  if flashSize s <? readValue then
    let s := emit (EPrintln (TStr "!ERROR: File size exceeds flash size")) s in
    resetState s
  else set_fileSize readValue s.

(** *** eraseChip (main.cpp, lines 218-242) *)

(** [ceil(flashSize / 32768)]: both operands are integers, so the quotient
    is already truncated when [ceil] sees it. *)
Definition erase_block_count (flashSize : Z) : Z := flashSize / 32768.

(** The [for] loop with [todo] turns left, at index [i], followed by the
    completion message. *)
Fixpoint eraseChip_from (todo : nat) (i : Z) (s : Session) : Session :=
  match todo with
  | O => emit (EPrintln (TStr "#Chip erased")) s
  | S todo' =>
      let s :=
        set_flash (eraseBlock32K (wrap_u32 (wrap_s32 (32768 * i))) (flash s)) s in
      let err := flash_error (flash s) in
      if negb (err =? 0) then
        let s :=
          emit (EPrint (TStr "!ERROR: Flash error during erase in block at ")) s in
        let s := emit (EPrint (TDec (wrap_s32 (32768 * i)))) s in
        let s := emit (EPrint (TStr " | Err ")) s in
        let s := emit (EPrintln (TDec err)) s in
        resetState s
      else
        eraseChip_from todo' (wrap_s32 (i + 1)) (emit (EDelay 1) s)
  end.

Definition eraseChip (s : Session) : Session :=
  let s := emit (EPrintln (TStr "#Erasing chip...")) s in
  let s := emit EFlush s in
  eraseChip_from (Z.to_nat (erase_block_count (flashSize s))) 0 s.

(** *** writeData (main.cpp, lines 245-265) *)

Definition writeData (data : list Z) (dataLength : Z) (s : Session) : Session :=
  let s :=
    set_flash
      (writeByteArray (currentFlashOffset s)
         (take (Z.to_nat (wrap_u32 dataLength)) data) (flash s)) s in
  let flashErrNo := flash_error (flash s) in
  if negb (flashErrNo =? 0) then
    let s :=
      emit (EPrint (TStr "!ERROR: Flash error during write in page at ")) s in
    let s := emit (EPrint (TDec (currentFlashOffset s))) s in
    let s := emit (EPrint (TStr " : Err ")) s in
    let s := emit (EPrintln (TDec flashErrNo)) s in
    resetState s
  else
    let s := emit (EPrintln (TStr "#W_OK")) s in
    let s := emit EFlush s in
    set_currentFlashOffset (wrap_u32 (currentFlashOffset s + dataLength)) s.

(** *** handleDoFlash (main.cpp, lines 212-215) *)

Definition handleDoFlash (s : Session) : Session :=
  let s := writeData (dataBuffer s) (wrap_s32 (dataLength s)) s in
  set_dataLength 0 s.

(** *** handleData (main.cpp, lines 134-164) *)

(** The two assignments after the [switch]. *)
Definition handled (s : Session) : Session :=
  set_dataNeedsHandling false (set_messageLength 0 s).

Definition handleData (s : Session) : Session :=
  match state s with
  | SET_BAUD => handled (handleSetBaud s)
  | SET_ERASE => handled (handleSetErase s)
  | SET_WRITE => handled (handleSetWrite s)
  | SET_FILE_SIZE => handled (handleSetFileSize s)
  | RECV_FLASH_DATA =>
      let (len, s) := b64ToBytes s in
      let s := set_dataLength len s in
      if dataLength s =? 0 then
        let s :=
          emit (EPrintln
                  (TStr "!ERROR: Data length was 0 after conversion from base64")) s in
        resetState s
      else
        handled
          (emit (EPrintln (TStr ("@" ++ md5 (dataBuffer s) (dataLength s)))) s)
  | DO_ERASE => handled (eraseChip s)
  | DO_FLASH => handled (handleDoFlash s)
  | RESET_STATE => handled (resetState s)
  | SEND_FLASH_INFO => handled (handleGetFlashInfo s)
  | NONE => handled s
  end.

(** *** loop (main.cpp, lines 70-78) *)

Definition loop (avail : list Z) (s : Session) : Session :=
  let s := handleSerialMessage avail s in
  let s := if dataNeedsHandling s then handleData s else s in
  emit (EDelay 1) s.

End Firmware.

(** ** Reference notions of the protocol description *)

(** The nine command selectors and the command each one stands for
    (main.cpp, line 12). *)
Definition selectors : list (ascii * states) :=
  [("!"%char, SET_BAUD); ("@"%char, SET_ERASE); ("#"%char, SET_WRITE);
   ("$"%char, SET_FILE_SIZE); ("%"%char, RECV_FLASH_DATA);
   ("^"%char, DO_ERASE); ("&"%char, DO_FLASH); ("*"%char, RESET_STATE);
   ("("%char, SEND_FLASH_INFO)].

(** A byte that the framer stores: a byte value that is neither a selector
    nor the line terminator. *)
Definition payload_byte (b : Z) : bool :=
  (0 <=? b) && (b <? 256)
  && forallb (fun c => negb (b =? chr c)) (endMarker :: map fst selectors).

(** The little-endian value as the description words it: the sum over all
    indices [i] of byte [i] shifted left by [i * 8]. *)
Fixpoint spec_le_sum_from (i : Z) (bytes : list Z) : Z :=
  match bytes with
  | [] => 0
  | b :: rest => Z.shiftl b (i * 8) + spec_le_sum_from (i + 1) rest
  end.

Definition spec_le_sum (bytes : list Z) : Z := spec_le_sum_from 0 bytes.

(** The values [resetState] assigns. *)
Definition was_reset {Flash : Type} (s : Session Flash) : Prop :=
  state s = NONE /\ shouldDoErase s = false /\ shouldDoWrite s = false
  /\ fileSize s = 0 /\ currRecvDataPos s = 0 /\ messageLength s = 0
  /\ dataNeedsHandling s = false.

(** The chip after [todo] blocks of 32 KiB, from block [i] on, have been
    erased one after the other. *)
Fixpoint erase_blocks {Flash : Type} {chip : FlashDevice Flash}
    (todo : nat) (i : Z) (dev : Flash) : Flash :=
  match todo with
  | O => dev
  | S todo' => erase_blocks todo' (i + 1) (eraseBlock32K (32768 * i) dev)
  end.

(** What [resetState] does with the serial port. *)
Definition reset_events : list event :=
  [EDelay 1000; EEnd; EBegin INITIAL_SERIAL_BAUD_RATE].

(** ** Driving the firmware with text *)

Fixpoint bytes_of_string (t : string) : list Z :=
  match t with
  | EmptyString => []
  | String c t' => chr c :: bytes_of_string t'
  end.

(** A command as the host sends it: the text, then the line terminator. *)
Definition frame (t : string) : list Z := bytes_of_string t ++ [chr endMarker].

(** One [loop] turn per chunk of available bytes. *)
Fixpoint run {Flash : Type} {chip : FlashDevice Flash} {digest : Digest}
    {codec : Codec} (chunks : list (list Z)) (s : Session Flash)
    : Session Flash :=
  match chunks with
  | [] => s
  | avail :: rest => run rest (loop avail s)
  end.

(** ** The base64 codec *)

Module Base64Model.

(** Modelled from the spec: the base64 codec ([base64.hpp], which is not
    among the sources) "decodes an ASCII payload into raw bytes".  This is
    the standard alphabet (A-Z, a-z, 0-9, +, /); any other byte, such as the
    padding [=], has no value. *)
Definition base64_to_binary (c : Z) : Z :=
  if (chr "A" <=? c) && (c <=? chr "Z") then c - 65
  else if (chr "a" <=? c) && (c <=? chr "z") then c - 71
  else if (chr "0" <=? c) && (c <=? chr "9") then c + 4
  else if c =? chr "+" then 62
  else if c =? chr "/" then 63
  else 255.

(** Modelled from the spec: the number of leading bytes of the input that
    are base64 digits; decoding stops at the first byte that is not. *)
Fixpoint base64_prefix (input : list Z) : nat :=
  match input with
  | [] => O
  | c :: rest =>
      if base64_to_binary c <? 64 then S (base64_prefix rest) else O
  end.

(** Modelled from the spec: four base64 digits carry three bytes; a last
    group of three digits carries two bytes, one of two digits one byte, and
    a single left-over digit none. *)
Fixpoint decode_groups (digits : list Z) : list Z :=
  match digits with
  | a :: b :: c :: d :: rest =>
      to_byte (Z.lor (Z.shiftl (base64_to_binary a) 2)
                     (Z.shiftr (base64_to_binary b) 4))
      :: to_byte (Z.lor (Z.shiftl (base64_to_binary b) 4)
                        (Z.shiftr (base64_to_binary c) 2))
      :: to_byte (Z.lor (Z.shiftl (base64_to_binary c) 6)
                        (base64_to_binary d))
      :: decode_groups rest
  | [a; b; c] =>
      [to_byte (Z.lor (Z.shiftl (base64_to_binary a) 2)
                      (Z.shiftr (base64_to_binary b) 4));
       to_byte (Z.lor (Z.shiftl (base64_to_binary b) 4)
                      (Z.shiftr (base64_to_binary c) 2))]
  | [a; b] =>
      [to_byte (Z.lor (Z.shiftl (base64_to_binary a) 2)
                      (Z.shiftr (base64_to_binary b) 4))]
  | _ => []
  end.

(** Modelled from the spec: [decode_base64] of [base64.hpp], as the list of
    bytes it stores into its output array. *)
Definition decode (input : list Z) : list Z :=
  decode_groups (take (base64_prefix input) input).

Definition codec : Codec := {| decode_base64 := decode |}.

End Base64Model.

(** ** Test doubles for the flash chip and the digest *)

Inductive flash_op : Set :=
  | OpErase (addr : Z)
  | OpWrite (addr : Z) (data : list Z).

(** A scripted chip: it logs every operation and answers [error()] with what
    its script says about the last one. *)
Record MockFlash := mkMock {
  mock_capacity : Z;
  mock_script : flash_op -> Z;
  mock_ops : list flash_op;
  mock_status : Z
}.

Definition mock_do (op : flash_op) (m : MockFlash) : MockFlash :=
  mkMock (mock_capacity m) (mock_script m) (mock_ops m ++ [op])
    (mock_script m op).

Definition mock_device : FlashDevice MockFlash := {|
  getCapacity := mock_capacity;
  getJEDECID := fun _ => 0xEF4016;
  getMaxPage := fun m => mock_capacity m / 256;
  eraseBlock32K := fun addr => mock_do (OpErase addr);
  writeByteArray := fun addr data => mock_do (OpWrite addr data);
  flash_error := mock_status
|}.

Definition healthy : flash_op -> Z := fun _ => 0.

Definition erase_fails_at (addr code : Z) : flash_op -> Z :=
  fun op =>
    match op with
    | OpErase a => if a =? addr then code else 0
    | OpWrite _ _ => 0
    end.

Definition writes_fail (code : Z) : flash_op -> Z :=
  fun op =>
    match op with
    | OpErase _ => 0
    | OpWrite _ _ => code
    end.

Definition mock_chip (capacity : Z) (script : flash_op -> Z) : MockFlash :=
  mkMock capacity script [] 0.

(** byteArrayToHex (main.cpp, lines 294-302): the upper-case hex dump. *)
Definition hex_digit (nib : Z) : ascii :=
  if nib <? 10 then ascii_of_N (Z.to_N (chr "0" + nib))
  else ascii_of_N (Z.to_N (chr "A" + nib - 10)).

Fixpoint byteArrayToHex (array : list Z) : string :=
  match array with
  | [] => EmptyString
  | b :: rest =>
      String (hex_digit (Z.land (Z.shiftr b 4) 15))
        (String (hex_digit (Z.land b 15)) (byteArrayToHex rest))
  end.

(** A stand-in for MD5 in examples: the hex dump of the bytes. *)
Definition dump_digest : Digest := {| md5_hex := byteArrayToHex |}.

(** ** The firmware on the test doubles *)

Definition mock_setup (capacity : Z) (script : flash_op -> Z)
    : Session MockFlash :=
  setup (chip := mock_device) (mock_chip capacity script).

Definition mock_feed (avail : list Z) (s : Session MockFlash)
    : Session MockFlash :=
  handleSerialMessage avail s.

Definition mock_handleData (s : Session MockFlash) : Session MockFlash :=
  handleData (chip := mock_device) (digest := dump_digest)
    (codec := Base64Model.codec) s.

Definition mock_b64ToInt (s : Session MockFlash) : Z * Session MockFlash :=
  b64ToInt (codec := Base64Model.codec) s.

Definition mock_run (chunks : list (list Z)) (s : Session MockFlash)
    : Session MockFlash :=
  run (chip := mock_device) (digest := dump_digest)
    (codec := Base64Model.codec) chunks s.

(** ** Reference notions for the properties beyond the protocol description *)


(** Reading a hex dump back: the value of a hex digit and the bytes of a
    text of digit pairs. *)
Definition hex_value (c : ascii) : Z :=
  if chr c <? chr "A" then chr c - chr "0" else chr c - chr "A" + 10.

Fixpoint hex_to_bytes (t : string) : list Z :=
  match t with
  | String hi (String lo rest) =>
      (hex_value hi * 16 + hex_value lo) :: hex_to_bytes rest
  | _ => []
  end.

Definition is_hex_digit (c : ascii) : bool :=
  ((chr "0" <=? chr c) && (chr c <=? chr "9"))
  || ((chr "A" <=? chr c) && (chr c <=? chr "F")).

Fixpoint string_forall (p : ascii -> bool) (t : string) : bool :=
  match t with
  | EmptyString => true
  | String c rest => p c && string_forall p rest
  end.

(** The four bytes of a 32-bit value, least significant first, as the host
    sends baud rates, flags and file sizes. *)
Definition le_bytes32 (v : Z) : list Z :=
  [v mod 256; v / 256 mod 256; v / 65536 mod 256; v / 16777216 mod 256].

(** ** Proof automation *)

(** Sessions are computed call-by-value, on an explicit record: every
    assignment then rebuilds the record once. *)
Ltac session_cbv :=
  cbv beta iota zeta delta
    [resetState emit handled reset_events was_reset
     set_state set_flash set_flashSize set_currentFlashOffset
     set_shouldDoErase set_shouldDoWrite set_fileSize set_receivedMessage
     set_messageLength set_currRecvDataPos set_dataNeedsHandling
     set_dataBuffer set_dataLength set_serial set_memFault
     state flash flashSize currentFlashOffset shouldDoErase shouldDoWrite
     fileSize receivedMessage messageLength currRecvDataPos
     dataNeedsHandling dataBuffer dataLength serial memFault
     message decode_message b64ToBytes b64ToInt md5 handleSetBaud
     handleSetErase handleSetWrite handleSetFileSize writeData
     handleDoFlash handleGetFlashInfo eraseChip handleData loop
     fst snd].

Ltac session_cbv_in H :=
  cbv beta iota zeta delta
    [resetState emit handled reset_events was_reset
     set_state set_flash set_flashSize set_currentFlashOffset
     set_shouldDoErase set_shouldDoWrite set_fileSize set_receivedMessage
     set_messageLength set_currRecvDataPos set_dataNeedsHandling
     set_dataBuffer set_dataLength set_serial set_memFault
     state flash flashSize currentFlashOffset shouldDoErase shouldDoWrite
     fileSize receivedMessage messageLength currRecvDataPos
     dataNeedsHandling dataBuffer dataLength serial memFault
     message decode_message b64ToBytes b64ToInt md5 handleSetBaud
     handleSetErase handleSetWrite handleSetFileSize writeData
     handleDoFlash handleGetFlashInfo eraseChip handleData loop
     fst snd] in H.

(** Case analysis on every test a computed session still depends on. *)
Ltac split_ifs :=
  repeat match goal with
         | |- context [if ?c then _ else _] =>
             let E := fresh "E" in destruct c eqn:E; session_cbv
         end.

(** * Properties *)

(** ** Machine integers *)


Lemma wrap_u32_small z : 0 <= z < 2 ^ 32 -> wrap_u32 z = z.
Proof. intros Hz. unfold wrap_u32. apply Z.mod_small. exact Hz. Qed.

Lemma wrap_s32_small z : - 2 ^ 31 <= z < 2 ^ 31 -> wrap_s32 z = z.
Proof. intros Hz. unfold wrap_s32. rewrite Z.mod_small; lia. Qed.

Lemma wrap_u32_idem z : wrap_u32 (wrap_u32 z) = wrap_u32 z.
Proof. unfold wrap_u32. apply Z.mod_mod. lia. Qed.

(** Converting an [int] back to [uint32_t] forgets the detour. *)
Lemma wrap_u32_s32 z : wrap_u32 (wrap_s32 z) = wrap_u32 z.
Proof.
  unfold wrap_u32, wrap_s32.
  rewrite Zminus_mod, Z.mod_mod, <- Zminus_mod by lia.
  f_equal. lia.
Qed.

Lemma wrap_u32_add_l a b : wrap_u32 (wrap_u32 a + b) = wrap_u32 (a + b).
Proof. unfold wrap_u32. apply Zplus_mod_idemp_l. Qed.

Lemma wrap_u32_add_r a b : wrap_u32 (a + wrap_u32 b) = wrap_u32 (a + b).
Proof. unfold wrap_u32. apply Zplus_mod_idemp_r. Qed.

Lemma wrap_u32_add_s32 a b : wrap_u32 (a + wrap_s32 b) = wrap_u32 (a + b).
Proof.
  rewrite <- wrap_u32_add_r, wrap_u32_s32, wrap_u32_add_r. reflexivity.
Qed.

Lemma MESSAGE_MAX_SIZE_value : MESSAGE_MAX_SIZE = 2735.
Proof. reflexivity. Qed.

(** ** byteArrayToInt *)

Lemma byteArrayToInt_from_sum elems : forall i out,
  wrap_u32 out = out ->
  byteArrayToInt_from i out elems = wrap_u32 (out + spec_le_sum_from i elems).
Proof.
  induction elems as [|b rest IH]; intros i out Hout; simpl.
  - rewrite Z.add_0_r. symmetry. exact Hout.
  - rewrite IH by apply wrap_u32_idem.
    rewrite wrap_u32_add_l, <- Z.add_assoc, (Z.add_comm (wrap_s32 _)).
    rewrite Z.add_assoc, wrap_u32_add_s32.
    f_equal. lia.
Qed.

Lemma byteArrayToInt_sum (bytes : list Z) :
  byteArrayToInt bytes (Z.of_nat (length bytes)) = wrap_u32 (spec_le_sum bytes).
Proof.
  unfold byteArrayToInt, spec_le_sum.
  destruct bytes as [|b rest]; [reflexivity|].
  replace (Z.of_nat (length (b :: rest)) =? 0) with false
    by (symmetry; apply Z.eqb_neq; simpl length; lia).
  rewrite Nat2Z.id, firstn_all.
  apply byteArrayToInt_from_sum. reflexivity.
Qed.

(** Only the first [length] elements of the array are read. *)
Lemma byteArrayToInt_app (bytes tail : list Z) :
  byteArrayToInt (bytes ++ tail) (Z.of_nat (length bytes))
  = byteArrayToInt bytes (Z.of_nat (length bytes)).
Proof.
  unfold byteArrayToInt. rewrite Nat2Z.id.
  rewrite take_app_length, firstn_all. reflexivity.
Qed.

(** ** The serial trace *)

Lemma begins_app (tr1 tr2 : list event) :
  begins (tr1 ++ tr2) = begins tr1 ++ begins tr2.
Proof.
  induction tr1 as [|e tr1 IH]; [reflexivity|].
  destruct e; simpl; rewrite IH; reflexivity.
Qed.

Section Facts.
Context {Flash : Type} {chip : FlashDevice Flash} {digest : Digest}
  {codec : Codec}.

Implicit Types s : Session Flash.

(** ** resetState *)

Lemma resetState_was_reset s : was_reset (resetState s).
Proof. destruct s. session_cbv. repeat split. Qed.

Lemma resetState_serial s :
  serial (resetState s) = serial s ++ reset_events.
Proof.
  destruct s. session_cbv. rewrite <- !app_assoc. reflexivity.
Qed.

(** What [resetState] does not assign. *)
Lemma resetState_keeps s :
  currentFlashOffset (resetState s) = currentFlashOffset s
  /\ dataLength (resetState s) = dataLength s
  /\ dataBuffer (resetState s) = dataBuffer s
  /\ receivedMessage (resetState s) = receivedMessage s
  /\ flash (resetState s) = flash s
  /\ flashSize (resetState s) = flashSize s
  /\ memFault (resetState s) = memFault s.
Proof. destruct s. session_cbv. repeat split. Qed.

(** A second reset changes nothing but the trace. *)
Lemma resetState_twice s :
  resetState (resetState s)
  = set_serial (serial (resetState s) ++ reset_events) (resetState s).
Proof. destruct s. session_cbv. rewrite <- !app_assoc. reflexivity. Qed.

Lemma handled_resetState s : handled (resetState s) = resetState s.
Proof. destruct s. session_cbv. reflexivity. Qed.

(** ** The framer: command selectors *)

(** C8. For each of the nine reserved selector bytes, the framer fed that
    byte and nothing else assigns the corresponding command to the pending
    command and changes nothing else: the payload buffer and its fill cursor
    are as before. *)
Theorem selector_sets_pending_command (c : ascii) (cmd : states) s :
  In (c, cmd) selectors ->
  handleSerialMessage [chr c] s = set_state cmd s
  /\ state (handleSerialMessage [chr c] s) = cmd
  /\ receivedMessage (handleSerialMessage [chr c] s) = receivedMessage s
  /\ currRecvDataPos (handleSerialMessage [chr c] s) = currRecvDataPos s.
Proof.
  intros Hin.
  assert (Hrun : handleSerialMessage [chr c] s = set_state cmd s).
  { unfold selectors in Hin. simpl in Hin.
    repeat (destruct Hin as [Hin | Hin];
            [injection Hin as <- <-; reflexivity|]).
    contradiction. }
  rewrite Hrun. destruct s. session_cbv. repeat split.
Qed.

(** The selectors are nine distinct bytes, none of them the terminator. *)
Lemma selectors_distinct :
  length selectors = 9%nat
  /\ NoDup (chr endMarker :: map (fun p => chr (fst p)) selectors).
Proof.
  split; [reflexivity|].
  apply (bool_decide_unpack _). vm_compute. exact I.
Qed.

(** ** The framer: accumulating a payload *)

Lemma payload_byte_range b : payload_byte b = true -> 0 <= b < 256.
Proof.
  unfold payload_byte. intros Hb.
  apply andb_prop in Hb as [Hb _]. apply andb_prop in Hb as [Hlo Hhi].
  apply Z.leb_le in Hlo. apply Z.ltb_lt in Hhi. lia.
Qed.

(** A payload byte takes the [default:] branch of the [switch]. *)
Lemma handleSerialByte_payload b s :
  payload_byte b = true ->
  handleSerialByte b s
  = let s1 := store_receivedMessage (currRecvDataPos s) b s in
    let s2 := set_currRecvDataPos (wrap_s32 (currRecvDataPos s1 + 1)) s1 in
    if MESSAGE_MAX_SIZE <? currRecvDataPos s2
    then resetState (emit (EPrintln (TStr overflow_message)) s2)
    else s2.
Proof.
  intros Hb. pose proof (payload_byte_range b Hb) as Hrange.
  unfold handleSerialByte.
  repeat match goal with
         | |- context [b =? ?k] =>
             destruct (Z.eqb_spec b k) as [Heq | _];
             [rewrite Heq in Hb; vm_compute in Hb; discriminate|]
         end.
  unfold to_byte. rewrite Z.mod_small by exact Hrange. reflexivity.
Qed.

(** Below the capacity a payload byte is stored at the fill cursor, which
    moves on by one; nothing else happens. *)
Lemma handleSerialByte_stores b s :
  payload_byte b = true ->
  0 <= currRecvDataPos s < MESSAGE_MAX_SIZE ->
  handleSerialByte b s
  = set_currRecvDataPos (currRecvDataPos s + 1)
      (set_receivedMessage
         (<[Z.to_nat (currRecvDataPos s) := b]> (receivedMessage s)) s).
Proof.
  intros Hb Hpos. rewrite handleSerialByte_payload by exact Hb.
  destruct s. session_cbv_in Hpos. session_cbv.
  unfold store_receivedMessage. session_cbv.
  replace (0 <=? currRecvDataPos0) with true by (symmetry; apply Z.leb_le; lia).
  replace (currRecvDataPos0 <? MESSAGE_MAX_SIZE) with true
    by (symmetry; apply Z.ltb_lt; lia).
  cbv beta iota delta [andb]. session_cbv.
  rewrite MESSAGE_MAX_SIZE_value in *.
  rewrite wrap_s32_small by lia.
  replace (2735 <? currRecvDataPos0 + 1) with false
    by (symmetry; apply Z.ltb_ge; lia).
  reflexivity.
Qed.

(** Payload bytes that fit between the fill cursor and the end of the array
    are stored one after the other from the fill cursor on; the framer
    prints nothing, does not reset and stores nothing outside the array. *)
Lemma framer_accumulates (payload : list Z) : forall s,
  Forall (fun b => payload_byte b = true) payload ->
  0 <= currRecvDataPos s ->
  currRecvDataPos s + Z.of_nat (length payload) <= MESSAGE_MAX_SIZE ->
  Z.of_nat (length (receivedMessage s)) = MESSAGE_MAX_SIZE ->
  let s' := handleSerialMessage payload s in
  s' = set_currRecvDataPos (currRecvDataPos s + Z.of_nat (length payload))
         (set_receivedMessage (receivedMessage s') s)
  /\ length (receivedMessage s') = length (receivedMessage s)
  /\ take (Z.to_nat (currRecvDataPos s + Z.of_nat (length payload)))
        (receivedMessage s')
     = take (Z.to_nat (currRecvDataPos s)) (receivedMessage s) ++ payload.
Proof.
  induction payload as [|b rest IH]; intros s Hall Hpos Hfit Hlen.
  - simpl. rewrite Z.add_0_r, app_nil_r.
    split; [|split; reflexivity]. destruct s. reflexivity.
  - apply Forall_cons in Hall as [Hb Hrest].
    simpl length in Hfit. simpl handleSerialMessage.
    rewrite handleSerialByte_stores by (try exact Hb; lia).
    set (s1 := set_currRecvDataPos _ _).
    assert (Hpos1 : currRecvDataPos s1 = currRecvDataPos s + 1)
      by (destruct s; reflexivity).
    assert (Hrm1 : receivedMessage s1
                   = <[Z.to_nat (currRecvDataPos s) := b]> (receivedMessage s))
      by (destruct s; reflexivity).
    specialize (IH s1 Hrest).
    rewrite Hpos1, Hrm1, length_insert in IH.
    specialize (IH ltac:(lia) ltac:(lia) Hlen).
    cbv zeta in IH. destruct IH as (Heq & Hlen' & Htake).
    cbv zeta. simpl length.
    replace (currRecvDataPos s + Z.of_nat (S (length rest)))
      with (currRecvDataPos s + 1 + Z.of_nat (length rest)) by lia.
    split; [|split].
    + rewrite Heq at 1. subst s1. destruct s. session_cbv. reflexivity.
    + exact Hlen'.
    + rewrite Htake.
      replace (Z.to_nat (currRecvDataPos s + 1))
        with (S (Z.to_nat (currRecvDataPos s))) by lia.
      rewrite (take_S_r _ _ b)
        by (apply list_lookup_insert_eq; lia).
      rewrite take_insert_ge by lia.
      rewrite <- app_assoc. reflexivity.
Qed.

(** ** The framer: overflow *)

Lemma handleSerialMessage_app (l1 l2 : list Z) : forall s,
  handleSerialMessage (l1 ++ l2) s
  = handleSerialMessage l2 (handleSerialMessage l1 s).
Proof.
  induction l1 as [|c l1 IH]; intros s; [reflexivity|]. simpl. apply IH.
Qed.

Lemma store_receivedMessage_outside i v s :
  MESSAGE_MAX_SIZE <= i -> store_receivedMessage i v s = set_memFault true s.
Proof.
  intros Hi. unfold store_receivedMessage.
  replace (i <? MESSAGE_MAX_SIZE) with false by (symmetry; apply Z.ltb_ge; lia).
  rewrite andb_false_r. reflexivity.
Qed.

(** At the end of the array the next payload byte is stored outside of it;
    the overflow is reported, and the session reset, after that store. *)
Lemma handleSerialByte_overflows b s :
  payload_byte b = true ->
  currRecvDataPos s = MESSAGE_MAX_SIZE ->
  handleSerialByte b s
  = resetState
      (emit (EPrintln (TStr overflow_message))
         (set_currRecvDataPos (MESSAGE_MAX_SIZE + 1) (set_memFault true s)))
  /\ memFault (handleSerialByte b s) = true
  /\ serial (handleSerialByte b s)
     = serial s ++ EPrintln (TStr overflow_message) :: reset_events.
Proof.
  intros Hb Hpos.
  assert (Heq : handleSerialByte b s
                = resetState
                    (emit (EPrintln (TStr overflow_message))
                       (set_currRecvDataPos (MESSAGE_MAX_SIZE + 1)
                          (set_memFault true s)))).
  { rewrite handleSerialByte_payload by exact Hb.
    destruct s. session_cbv_in Hpos. subst. reflexivity. }
  split; [exact Heq|]. rewrite Heq. destruct s. session_cbv.
  rewrite <- !app_assoc. split; reflexivity.
Qed.

(** A payload of exactly [MESSAGE_MAX_SIZE] bytes is accepted like any
    shorter one; one byte more is stored outside the array. *)
Lemma framer_overflow_is_late (payload : list Z) (b : Z) s :
  Forall (fun c => payload_byte c = true) payload ->
  payload_byte b = true ->
  currRecvDataPos s = 0 ->
  Z.of_nat (length payload) = MESSAGE_MAX_SIZE ->
  Z.of_nat (length (receivedMessage s)) = MESSAGE_MAX_SIZE ->
  (serial (handleSerialMessage payload s) = serial s
   /\ memFault (handleSerialMessage payload s) = memFault s
   /\ currRecvDataPos (handleSerialMessage payload s) = MESSAGE_MAX_SIZE)
  /\ handleSerialMessage (payload ++ [b]) s
     = handleSerialByte b (handleSerialMessage payload s)
  /\ memFault (handleSerialMessage (payload ++ [b]) s) = true
  /\ serial (handleSerialMessage (payload ++ [b]) s)
     = serial s ++ EPrintln (TStr overflow_message) :: reset_events.
Proof.
  intros Hall Hb Hpos Hlen Hrm.
  destruct (framer_accumulates payload s Hall ltac:(lia) ltac:(lia) Hrm)
    as (Heq & _ & _).
  rewrite Hpos, Hlen, Z.add_0_l in Heq.
  assert (Hser : serial (handleSerialMessage payload s) = serial s)
    by (rewrite Heq; destruct s; reflexivity).
  assert (Hcur : currRecvDataPos (handleSerialMessage payload s)
                 = MESSAGE_MAX_SIZE)
    by (rewrite Heq; destruct s; reflexivity).
  split; [split; [exact Hser|]; split; [|exact Hcur];
          rewrite Heq; destruct s; reflexivity|].
  rewrite handleSerialMessage_app. simpl handleSerialMessage.
  split; [reflexivity|].
  destruct (handleSerialByte_overflows b _ Hb Hcur) as (_ & Hfault & Hout).
  split; [exact Hfault|]. rewrite Hout, Hser. reflexivity.
Qed.

(** ** The framer: a whole frame *)

Lemma handleSerialByte_selector (c : ascii) (cmd : states) s :
  In (c, cmd) selectors -> handleSerialByte (chr c) s = set_state cmd s.
Proof.
  intros Hin. unfold selectors in Hin. simpl in Hin.
  repeat (destruct Hin as [Hin | Hin];
          [injection Hin as <- <-; reflexivity|]).
  contradiction.
Qed.

Lemma handleSerialByte_endMarker s :
  handleSerialByte (chr endMarker) s
  = set_dataNeedsHandling true
      (set_currRecvDataPos 0 (set_messageLength (currRecvDataPos s) s)).
Proof. reflexivity. Qed.

(** A selector, a payload that fits the buffer and the terminator, arriving
    at the start of a frame: the command is pending, the payload is the
    message handed to the dispatcher, and nothing was printed. *)
Lemma framer_receives_frame (c : ascii) (cmd : states) (payload : list Z) s :
  In (c, cmd) selectors ->
  Forall (fun b => payload_byte b = true) payload ->
  currRecvDataPos s = 0 ->
  Z.of_nat (length payload) <= MESSAGE_MAX_SIZE ->
  Z.of_nat (length (receivedMessage s)) = MESSAGE_MAX_SIZE ->
  let s' := handleSerialMessage (chr c :: payload ++ [chr endMarker]) s in
  state s' = cmd /\ dataNeedsHandling s' = true
  /\ messageLength s' = Z.of_nat (length payload)
  /\ message s' = payload
  /\ currRecvDataPos s' = 0
  /\ serial s' = serial s /\ memFault s' = memFault s
  /\ dataBuffer s' = dataBuffer s /\ dataLength s' = dataLength s
  /\ currentFlashOffset s' = currentFlashOffset s
  /\ flash s' = flash s /\ flashSize s' = flashSize s.
Proof.
  intros Hin Hall Hpos Hfit Hrm s'. subst s'.
  simpl handleSerialMessage. rewrite (handleSerialByte_selector c cmd s Hin).
  rewrite handleSerialMessage_app. simpl handleSerialMessage.
  rewrite handleSerialByte_endMarker.
  assert (Hpos1 : currRecvDataPos (set_state cmd s) = 0)
    by (destruct s; exact Hpos).
  assert (Hrm1 : Z.of_nat (length (receivedMessage (set_state cmd s)))
                 = MESSAGE_MAX_SIZE) by (destruct s; exact Hrm).
  destruct (framer_accumulates payload (set_state cmd s) Hall
              ltac:(lia) ltac:(lia) Hrm1) as (Heq & _ & Htake).
  rewrite Hpos1, Z.add_0_l in Heq, Htake.
  change (Z.to_nat 0) with O in Htake. rewrite take_0, app_nil_l in Htake.
  set (rm := receivedMessage (handleSerialMessage payload (set_state cmd s)))
    in *.
  rewrite Heq. clear Heq.
  rewrite MESSAGE_MAX_SIZE_value in Hfit.
  destruct s. session_cbv.
  rewrite wrap_u32_small by lia. rewrite Htake.
  repeat split.
Qed.

(** ** Decoding the payload *)

Lemma decode_message_fst s : fst (decode_message s) = decode_base64 (message s).
Proof. reflexivity. Qed.


Lemma decode_message_memFault s :
  memFault (snd (decode_message s))
  = memFault s
    || (DATA_CHUNK_SIZE <? Z.of_nat (length (decode_base64 (message s)))).
Proof.
  destruct s. session_cbv.
  destruct (DATA_CHUNK_SIZE <? _);
    [rewrite orb_true_r | rewrite orb_false_r]; reflexivity.
Qed.

(** Decoding touches [dataBuffer] and [memFault] only. *)
Lemma decode_message_frame s :
  let s1 := snd (decode_message s) in
  state s1 = state s /\ flash s1 = flash s /\ flashSize s1 = flashSize s
  /\ currentFlashOffset s1 = currentFlashOffset s
  /\ shouldDoErase s1 = shouldDoErase s /\ shouldDoWrite s1 = shouldDoWrite s
  /\ fileSize s1 = fileSize s /\ receivedMessage s1 = receivedMessage s
  /\ messageLength s1 = messageLength s
  /\ currRecvDataPos s1 = currRecvDataPos s
  /\ dataNeedsHandling s1 = dataNeedsHandling s
  /\ dataLength s1 = dataLength s /\ serial s1 = serial s.
Proof.
  destruct s. session_cbv.
  destruct (DATA_CHUNK_SIZE <? _); repeat split.
Qed.

Lemma b64ToInt_snd s : snd (b64ToInt s) = snd (decode_message s).
Proof. destruct s. session_cbv. reflexivity. Qed.


(** Reading an integer from the payload touches [dataBuffer] and
    [memFault] only. *)
Lemma b64ToInt_frame s :
  let s1 := snd (b64ToInt s) in
  state s1 = state s /\ flash s1 = flash s /\ flashSize s1 = flashSize s
  /\ currentFlashOffset s1 = currentFlashOffset s
  /\ shouldDoErase s1 = shouldDoErase s /\ shouldDoWrite s1 = shouldDoWrite s
  /\ fileSize s1 = fileSize s /\ receivedMessage s1 = receivedMessage s
  /\ messageLength s1 = messageLength s
  /\ currRecvDataPos s1 = currRecvDataPos s
  /\ dataNeedsHandling s1 = dataNeedsHandling s
  /\ dataLength s1 = dataLength s /\ serial s1 = serial s.
Proof. rewrite b64ToInt_snd. apply decode_message_frame. Qed.

(** ** Little-endian integers *)

(** Up to four bytes the sum fits 32 bits and nothing is cut off. *)
Lemma spec_le_sum_from_bound (bytes : list Z) : forall i,
  0 <= i ->
  Forall (fun b => 0 <= b < 256) bytes ->
  0 <= spec_le_sum_from i bytes
    <= 2 ^ (i * 8) * (256 ^ Z.of_nat (length bytes) - 1).
Proof.
  induction bytes as [|b rest IH]; intros i Hi Hall; simpl spec_le_sum_from.
  - simpl length. change (256 ^ Z.of_nat 0) with 1. lia.
  - apply Forall_cons in Hall as [Hb Hrest].
    specialize (IH (i + 1) ltac:(lia) Hrest).
    rewrite Z.shiftl_mul_pow2 by lia.
    replace ((i + 1) * 8) with (i * 8 + 8) in IH by lia.
    rewrite Z.pow_add_r in IH by lia. change (2 ^ 8) with 256 in IH.
    replace (Z.of_nat (length (b :: rest)))
      with (Z.of_nat (length rest) + 1) by (simpl length; lia).
    rewrite Z.pow_add_r by lia. change (256 ^ 1) with 256.
    assert (Hp : 0 < 2 ^ (i * 8)) by (apply Z.pow_pos_nonneg; lia).
    assert (Hq : 0 < 256 ^ Z.of_nat (length rest))
      by (apply Z.pow_pos_nonneg; lia).
    set (P := 2 ^ (i * 8)) in *. set (Q := 256 ^ Z.of_nat (length rest)) in *.
    assert (Hb1 : 0 <= b * P <= 255 * P) by nia.
    split; [lia|].
    transitivity (255 * P + P * 256 * (Q - 1)); [lia|]. nia.
Qed.

Lemma byteArrayToInt_exact (bytes : list Z) :
  (length bytes <= 4)%nat ->
  Forall (fun b => 0 <= b < 256) bytes ->
  byteArrayToInt bytes (Z.of_nat (length bytes)) = spec_le_sum bytes.
Proof.
  intros Hlen Hall. rewrite byteArrayToInt_sum.
  apply wrap_u32_small.
  pose proof (spec_le_sum_from_bound bytes 0 ltac:(lia) Hall) as Hb.
  change (2 ^ (0 * 8)) with 1 in Hb. fold (spec_le_sum bytes) in Hb.
  assert (256 ^ Z.of_nat (length bytes) <= 256 ^ 4)
    by (apply Z.pow_le_mono_r; lia).
  change (256 ^ 4) with (2 ^ 32) in *. lia.
Qed.


(** ** set-file-size *)

Lemma handleSetFileSize_eq s :
  handleSetFileSize s
  = if flashSize s <? fst (b64ToInt s)
    then resetState
           (emit (EPrintln (TStr "!ERROR: File size exceeds flash size"))
              (snd (b64ToInt s)))
    else set_fileSize (fst (b64ToInt s)) (snd (b64ToInt s)).
Proof.
  pose proof (b64ToInt_frame s) as Hframe. cbv zeta in Hframe.
  unfold handleSetFileSize.
  destruct (b64ToInt s) as [v s1]. simpl fst in *. simpl snd in *.
  replace (flashSize s1) with (flashSize s) by (symmetry; apply Hframe).
  reflexivity.
Qed.

(** C5. The set-file-size command stores every decoded value that is at most
    the device capacity as the target file size and prints nothing (the
    value equal to the capacity included); every value above the capacity
    gets one error line and a full reset. *)
Theorem set_file_size_accepts_up_to_capacity s :
  state s = SET_FILE_SIZE ->
  let value := fst (b64ToInt s) in
  let s' := handleData s in
  (value <= flashSize s ->
     fileSize s' = value /\ serial s' = serial s
     /\ s' = handled (set_fileSize value (snd (b64ToInt s))))
  /\ (flashSize s < value ->
       serial s'
       = serial s
         ++ EPrintln (TStr "!ERROR: File size exceeds flash size")
            :: reset_events
       /\ was_reset s'
       /\ s' = resetState
                (emit (EPrintln (TStr "!ERROR: File size exceeds flash size"))
                   (snd (b64ToInt s)))).
Proof.
  intros Hst value s'.
  assert (Hs' : s' = handled (handleSetFileSize s)).
  { subst s'. unfold handleData. rewrite Hst. reflexivity. }
  rewrite handleSetFileSize_eq in Hs'. fold value in Hs'.
  pose proof (b64ToInt_frame s) as Hframe. cbv zeta in Hframe.
  destruct Hframe as (_ & _ & _ & _ & _ & _ & _ & _ & _ & _ & _ & _ & Hser).
  clearbody value s'. rewrite <- Hser.
  destruct (snd (b64ToInt s)) as [].
  destruct (Z.ltb_spec (flashSize s) value) as [Hgt | Hle];
    subst s'; (split; intros Hv; [|]; try lia).
  - session_cbv. rewrite <- !app_assoc. repeat split.
  - session_cbv. repeat split.
Qed.

(** ** set-baud *)

Lemma handleSetBaud_eq s :
  handleSetBaud s
  = if 921600 <? fst (b64ToInt s)
    then resetState
           (emit (EPrintln (TStr "'"))
              (emit (EPrint (THex (fst (b64ToInt s))))
                 (emit (EPrint (TStr "!ERROR: Invalid baudrate '"))
                    (snd (b64ToInt s)))))
    else emit (EBegin (fst (b64ToInt s))) (emit EEnd (snd (b64ToInt s))).
Proof.
  unfold handleSetBaud. destruct (b64ToInt s) as [v s1]. reflexivity.
Qed.

(** C6, as the code has it. The set-baud command rejects every decoded rate
    above 921600 with one error line and a full session reset; the reset
    closes the port and reopens it at the initial 9600, and the port is never
    opened at the rejected rate.  For every rate at or below 921600 the
    command closes the port, reopens it at the new rate and prints
    nothing. *)
Theorem set_baud_ceiling s :
  state s = SET_BAUD ->
  let rate := fst (b64ToInt s) in
  let s' := handleData s in
  (921600 < rate ->
     serial s'
     = serial s
       ++ [EPrint (TStr "!ERROR: Invalid baudrate '"); EPrint (THex rate);
           EPrintln (TStr "'")]
       ++ reset_events
     /\ was_reset s'
     /\ begins (serial s')
        = begins (serial s) ++ [INITIAL_SERIAL_BAUD_RATE]
     /\ rate <> INITIAL_SERIAL_BAUD_RATE)
  /\ (rate <= 921600 ->
       serial s' = serial s ++ [EEnd; EBegin rate]
       /\ begins (serial s') = begins (serial s) ++ [rate]).
Proof.
  intros Hst rate s'.
  assert (Hs' : s' = handled (handleSetBaud s)).
  { subst s'. unfold handleData. rewrite Hst. reflexivity. }
  rewrite handleSetBaud_eq in Hs'. fold rate in Hs'.
  pose proof (b64ToInt_frame s) as Hframe. cbv zeta in Hframe.
  destruct Hframe as (_ & _ & _ & _ & _ & _ & _ & _ & _ & _ & _ & _ & Hser).
  clearbody rate s'. rewrite <- Hser.
  destruct (snd (b64ToInt s)) as [].
  destruct (Z.ltb_spec 921600 rate) as [Hgt | Hle];
    subst s'; (split; intros Hv; [|]; try lia).
  - session_cbv. rewrite <- !app_assoc. simpl.
    rewrite begins_app. unfold INITIAL_SERIAL_BAUD_RATE.
    repeat split. lia.
  - session_cbv. rewrite <- !app_assoc. simpl.
    rewrite begins_app. repeat split.
Qed.

(** ** receive-flash-chunk *)


(** What receive-flash-chunk leaves as the length of the decoded chunk. *)
Lemma recv_chunk_length s :
  state s = RECV_FLASH_DATA ->
  0 < Z.of_nat (length (decode_base64 (message s))) < 2 ^ 32 ->
  dataLength (handleData s) = Z.of_nat (length (decode_base64 (message s)))
  /\ memFault (handleData s)
     = memFault s
       || (DATA_CHUNK_SIZE <? Z.of_nat (length (decode_base64 (message s)))).
Proof.
  intros Hst Hlen.
  destruct s. session_cbv_in Hst. subst.
  unfold message in *. session_cbv_in Hlen. session_cbv.
  rewrite wrap_u32_small by lia.
  replace (Z.of_nat (length (decode_base64 _)) =? 0) with false
    by (symmetry; apply Z.eqb_neq; lia).
  destruct (DATA_CHUNK_SIZE <? _);
    rewrite ?orb_true_r, ?orb_false_r; split; reflexivity.
Qed.

(** ** do-flash *)

(** C3. With a decoded chunk of length [L], the do-flash command writes the
    chunk at the write cursor; when the device then reports status 0 it
    prints the write-acknowledged line and the cursor advances by exactly
    [L] (in [uint32_t] arithmetic, so by [L] itself as long as the sum fits
    32 bits); when the device reports a nonzero status it prints one error
    line naming the offset and the error code, resets, and the cursor is
    where it was. *)
Theorem do_flash_advances_cursor s :
  state s = DO_FLASH ->
  0 <= dataLength s < 2 ^ 32 ->
  0 <= currentFlashOffset s < 2 ^ 32 ->
  let L := dataLength s in
  let chunk := take (Z.to_nat L) (dataBuffer s) in
  let dev := writeByteArray (currentFlashOffset s) chunk (flash s) in
  let s' := handleData s in
  flash s' = dev /\ dataLength s' = 0
  /\ (flash_error dev = 0 ->
       currentFlashOffset s' = wrap_u32 (currentFlashOffset s + L)
       /\ (currentFlashOffset s + L < 2 ^ 32 ->
           currentFlashOffset s' = currentFlashOffset s + L)
       /\ serial s' = serial s ++ [EPrintln (TStr "#W_OK"); EFlush])
  /\ (flash_error dev <> 0 ->
       currentFlashOffset s' = currentFlashOffset s
       /\ serial s'
          = serial s
            ++ [EPrint (TStr "!ERROR: Flash error during write in page at ");
                EPrint (TDec (currentFlashOffset s));
                EPrint (TStr " : Err ");
                EPrintln (TDec (flash_error dev))]
            ++ reset_events
       /\ was_reset s').
Proof.
  intros Hst HL Hcur L chunk dev s'. subst s' dev chunk L.
  destruct s. session_cbv_in Hst. session_cbv_in HL. session_cbv_in Hcur.
  subst. session_cbv.
  rewrite wrap_u32_s32, (wrap_u32_small dataLength0) by exact HL.
  destruct (Z.eqb_spec
              (flash_error
                 (writeByteArray currentFlashOffset0
                    (take (Z.to_nat dataLength0) dataBuffer0) flash0)) 0)
    as [Hok | Hbad]; simpl negb; cbv iota.
  - split; [reflexivity|]. split; [reflexivity|].
    split; [intros _ | intros Hne; contradiction].
    rewrite wrap_u32_add_s32, <- !app_assoc.
    split; [reflexivity|]. split; [|reflexivity].
    intros Hfit. apply wrap_u32_small. lia.
  - split; [reflexivity|]. split; [reflexivity|].
    split; [intros Heq; contradiction | intros _].
    rewrite <- !app_assoc. repeat split.
Qed.

(** ** do-erase *)

Lemma erase_address i :
  0 <= i < 131072 -> wrap_u32 (wrap_s32 (32768 * i)) = 32768 * i.
Proof. intros Hi. rewrite wrap_u32_s32. apply wrap_u32_small. lia. Qed.

(** When every block reports status 0 the loop erases them all, pausing
    after each, and the completion message follows. *)
Lemma eraseChip_from_ok (todo : nat) : forall i s,
  0 <= i -> i + Z.of_nat todo <= 131072 ->
  (forall k, (k < todo)%nat ->
             flash_error (erase_blocks (S k) i (flash s)) = 0) ->
  eraseChip_from todo i s
  = emit (EPrintln (TStr "#Chip erased"))
      (set_serial (serial s ++ replicate todo (EDelay 1))
         (set_flash (erase_blocks todo i (flash s)) s)).
Proof.
  induction todo as [|todo IH]; intros i s Hi Hfit Hok.
  - simpl. rewrite app_nil_r. destruct s. reflexivity.
  - pose proof (Hok O ltac:(lia)) as Hfirst. simpl in Hfirst.
    simpl eraseChip_from. rewrite erase_address by lia.
    destruct s. session_cbv. session_cbv_in Hfirst. rewrite Hfirst. simpl negb. cbv iota.
    rewrite wrap_s32_small by lia.
    rewrite IH; [| lia | lia |].
    + session_cbv. simpl erase_blocks. simpl replicate.
      rewrite <- !app_assoc. reflexivity.
    + intros k Hk. specialize (Hok (S k) ltac:(lia)).
      session_cbv. session_cbv_in Hok. exact Hok.
Qed.

(** At the first block that reports a nonzero status the loop prints one
    error line with the offset of that block and the status, resets and
    returns: no further block is erased and no completion message is
    printed. *)
Lemma eraseChip_from_fail (j : nat) : forall (todo : nat) i s,
  (j < todo)%nat -> 0 <= i -> i + Z.of_nat todo <= 131072 ->
  (forall k, (k < j)%nat ->
             flash_error (erase_blocks (S k) i (flash s)) = 0) ->
  flash_error (erase_blocks (S j) i (flash s)) <> 0 ->
  eraseChip_from todo i s
  = resetState
      (emit (EPrintln (TDec (flash_error (erase_blocks (S j) i (flash s)))))
         (emit (EPrint (TStr " | Err "))
            (emit (EPrint (TDec (wrap_s32 (32768 * (i + Z.of_nat j)))))
               (emit (EPrint
                        (TStr "!ERROR: Flash error during erase in block at "))
                  (set_serial (serial s ++ replicate j (EDelay 1))
                     (set_flash (erase_blocks (S j) i (flash s)) s)))))).
Proof.
  induction j as [|j IH]; intros todo i s Hj Hi Hfit Hok Hbad;
    (destruct todo as [|todo]; [lia|]).
  - simpl in Hbad. simpl eraseChip_from. rewrite erase_address by lia.
    destruct s. session_cbv. session_cbv_in Hbad.
    destruct (Z.eqb_spec
                (flash_error (eraseBlock32K (32768 * i) flash0)) 0)
      as [Heq | _]; [contradiction|].
    simpl negb. cbv iota. simpl erase_blocks. simpl replicate.
    rewrite Z.add_0_r, app_nil_r. reflexivity.
  - pose proof (Hok O ltac:(lia)) as Hfirst. simpl in Hfirst.
    simpl eraseChip_from. rewrite erase_address by lia.
    destruct s. session_cbv. session_cbv_in Hfirst. rewrite Hfirst. simpl negb. cbv iota.
    rewrite wrap_s32_small by lia.
    rewrite IH; [| lia | lia | lia | |].
    + session_cbv. simpl erase_blocks. simpl replicate.
      rewrite <- !app_assoc.
      replace (i + 1 + Z.of_nat j) with (i + Z.of_nat (S j)) by lia.
      reflexivity.
    + intros k Hk. specialize (Hok (S k) ltac:(lia)).
      session_cbv. session_cbv_in Hok. exact Hok.
    + session_cbv. session_cbv_in Hbad. exact Hbad.
Qed.

Lemma erase_block_count_bound z :
  0 <= z < 2 ^ 32 -> 0 <= erase_block_count z < 131072.
Proof.
  intros Hz. unfold erase_block_count. split.
  - apply Z.div_pos; lia.
  - apply Z.div_lt_upper_bound; lia.
Qed.

(** The do-erase command on a chip whose blocks all erase well. *)
Lemma do_erase_completes s :
  state s = DO_ERASE ->
  0 <= flashSize s < 2 ^ 32 ->
  let blocks := Z.to_nat (erase_block_count (flashSize s)) in
  (forall k, (k < blocks)%nat ->
             flash_error (erase_blocks (S k) 0 (flash s)) = 0) ->
  let s' := handleData s in
  flash s' = erase_blocks blocks 0 (flash s)
  /\ serial s'
     = serial s ++ [EPrintln (TStr "#Erasing chip..."); EFlush]
       ++ replicate blocks (EDelay 1) ++ [EPrintln (TStr "#Chip erased")].
Proof.
  intros Hst Hsize blocks Hok s'. subst s'.
  pose proof (erase_block_count_bound _ Hsize) as Hcount.
  unfold handleData. rewrite Hst. unfold eraseChip.
  destruct s. session_cbv_in Hsize. session_cbv_in Hcount.
  session_cbv_in blocks. session_cbv_in Hok. session_cbv. fold blocks.
  rewrite eraseChip_from_ok; [| lia | subst blocks; lia | exact Hok].
  session_cbv. rewrite <- !app_assoc. split; reflexivity.
Qed.

(** The do-erase command on a chip whose block [j] is the first to report a
    nonzero status. *)
Lemma do_erase_stops_at_first_failure s (j : nat) :
  state s = DO_ERASE ->
  0 <= flashSize s < 2 ^ 32 ->
  (j < Z.to_nat (erase_block_count (flashSize s)))%nat ->
  (forall k, (k < j)%nat ->
             flash_error (erase_blocks (S k) 0 (flash s)) = 0) ->
  flash_error (erase_blocks (S j) 0 (flash s)) <> 0 ->
  let s' := handleData s in
  flash s' = erase_blocks (S j) 0 (flash s)
  /\ serial s'
     = serial s ++ [EPrintln (TStr "#Erasing chip..."); EFlush]
       ++ replicate j (EDelay 1)
       ++ [EPrint (TStr "!ERROR: Flash error during erase in block at ");
           EPrint (TDec (wrap_s32 (32768 * Z.of_nat j)));
           EPrint (TStr " | Err ");
           EPrintln (TDec (flash_error (erase_blocks (S j) 0 (flash s))))]
       ++ reset_events
  /\ was_reset s'.
Proof.
  intros Hst Hsize Hj Hok Hbad s'. subst s'.
  pose proof (erase_block_count_bound _ Hsize) as Hcount.
  unfold handleData. rewrite Hst. unfold eraseChip.
  destruct s. session_cbv_in Hsize. session_cbv_in Hcount.
  session_cbv_in Hj. session_cbv_in Hok. session_cbv_in Hbad. session_cbv.
  rewrite (eraseChip_from_fail j); [| exact Hj | lia | lia | exact Hok | exact Hbad].
  session_cbv. rewrite Z.add_0_l, <- !app_assoc. repeat split.
Qed.

(** The block count is the truncated quotient: below one block nothing is
    erased, and the bytes after the last whole block never are. *)
Lemma erase_block_count_truncates z :
  0 <= z -> 32768 * erase_block_count z <= z < 32768 * erase_block_count z + 32768.
Proof.
  intros Hz. unfold erase_block_count.
  pose proof (Z.div_mod z 32768 ltac:(lia)).
  pose proof (Z.mod_pos_bound z 32768 ltac:(lia)). lia.
Qed.

(** ** The reset command *)

Lemma reset_command s :
  loop (frame "*") s
  = emit (EDelay 1)
      (resetState
         (set_dataNeedsHandling true
            (set_currRecvDataPos 0
               (set_messageLength (currRecvDataPos s)
                  (set_state RESET_STATE s))))).
Proof. destruct s. vm_compute. reflexivity. Qed.

(** The reset command restores the values that [resetState] assigns; the
    write cursor and the length of the decoded chunk are not among them. *)
Lemma reset_command_effect s :
  was_reset (loop (frame "*") s)
  /\ currentFlashOffset (loop (frame "*") s) = currentFlashOffset s
  /\ dataLength (loop (frame "*") s) = dataLength s.
Proof. rewrite reset_command. destruct s. session_cbv. repeat split. Qed.

End Facts.

(** ** The base64 model *)

(** Four digits give at most three bytes. *)
Lemma decode_groups_length (digits : list Z) :
  (4 * length (Base64Model.decode_groups digits) <= 3 * length digits)%nat
  /\ (forall a,
       4 * length (Base64Model.decode_groups (a :: digits))
       <= 3 * length (a :: digits))%nat
  /\ (forall a b,
       4 * length (Base64Model.decode_groups (a :: b :: digits))
       <= 3 * length (a :: b :: digits))%nat
  /\ (forall a b c,
       4 * length (Base64Model.decode_groups (a :: b :: c :: digits))
       <= 3 * length (a :: b :: c :: digits))%nat.
Proof.
  induction digits as [|d rest (IH0 & IH1 & IH2 & IH3)].
  - simpl. repeat split; intros; lia.
  - split; [apply IH1|]. split; [intros a; apply IH2|].
    split; [intros a b; apply IH3|].
    intros a b c. simpl Base64Model.decode_groups. simpl length in *. lia.
Qed.

(** A payload of [n] bytes decodes to at most [3n/4] bytes: up to 2731
    bytes of base64 text fit [dataBuffer]. *)
Lemma decode_length_bound (input : list Z) :
  (4 * length (Base64Model.decode input) <= 3 * length input)%nat.
Proof.
  unfold Base64Model.decode.
  pose proof (decode_groups_length
                (take (Base64Model.base64_prefix input) input)) as [Hlen _].
  pose proof (length_take input (Base64Model.base64_prefix input)).
  lia.
Qed.

Lemma decode_fits_dataBuffer (input : list Z) :
  Z.of_nat (length input) <= 2731 ->
  Z.of_nat (length (Base64Model.decode input)) <= DATA_CHUNK_SIZE.
Proof.
  intros Hlen. pose proof (decode_length_bound input).
  unfold DATA_CHUNK_SIZE. lia.
Qed.

(** ** The firmware at concrete inputs *)

(** C1. The reset command leaves the write cursor where it is: after one
    acknowledged 4-byte chunk the cursor is 4, and it is still 4 after the
    reset command, although every session starts with cursor 0. *)
Theorem reset_command_keeps_write_cursor :
  let s0 := mock_setup 4194304 healthy in
  let s := mock_run [frame "%AQIDBA=="; frame "&"] s0 in
  let s' := mock_run [frame "*"] s in
  currentFlashOffset s0 = 0
  /\ currentFlashOffset s = 4
  /\ state s' = NONE /\ fileSize s' = 0 /\ messageLength s' = 0
  /\ currentFlashOffset s' = 4.
Proof. vm_compute. repeat split. Qed.

(** C2. The overflow check is off by one.  A payload of exactly
    [MESSAGE_MAX_SIZE] bytes fills the buffer without any error or reset;
    the byte after it is stored at index [MESSAGE_MAX_SIZE], one past the
    end of [receivedMessage], and only then is the overflow reported. *)
Theorem framer_overflow_check_off_by_one :
  let s0 := mock_setup 4194304 healthy in
  let payload := replicate 2735 (chr "A") in
  let full := handleSerialMessage payload s0 in
  let over := handleSerialMessage (payload ++ [chr "A"]) s0 in
  Z.of_nat (length (receivedMessage s0)) = MESSAGE_MAX_SIZE
  /\ Z.of_nat (length payload) = MESSAGE_MAX_SIZE
  /\ (currRecvDataPos full = MESSAGE_MAX_SIZE
      /\ serial full = serial s0 /\ memFault full = false)
  /\ over = handleSerialByte (chr "A") full
  /\ memFault (store_receivedMessage (currRecvDataPos full) (chr "A") full)
     = true
  /\ memFault over = true
  /\ serial over = serial s0 ++ EPrintln (TStr overflow_message) :: reset_events.
Proof.
  intros s0 payload full over.
  assert (Hrm : Z.of_nat (length (receivedMessage s0)) = MESSAGE_MAX_SIZE)
    by (vm_compute; reflexivity).
  assert (Hlen : Z.of_nat (length payload) = MESSAGE_MAX_SIZE)
    by (subst payload; rewrite length_replicate; reflexivity).
  assert (Hall : Forall (fun b => payload_byte b = true) payload)
    by (apply Forall_replicate; reflexivity).
  subst full over.
  destruct (framer_overflow_is_late payload (chr "A") s0 Hall eq_refl
              eq_refl Hlen Hrm) as ((Hser & Hfault & Hcur) & Hstep & Hbad & Hout).
  split; [exact Hrm|]. split; [exact Hlen|].
  split; [split; [exact Hcur|]; split; [exact Hser | exact Hfault]|].
  split; [exact Hstep|].
  split; [|split; [exact Hbad | exact Hout]].
  rewrite store_receivedMessage_outside by (rewrite Hcur; lia).
  generalize (handleSerialMessage payload s0). intros t. destruct t. reflexivity.
Qed.

(** C4. On a chip of 40000 bytes the do-erase command erases the block at
    offset 0 only and reports completion: the bytes from 32768 on are never
    erased. *)
Theorem do_erase_skips_last_partial_block :
  let s := mock_run [frame "^"] (mock_setup 40000 healthy) in
  flashSize s = 40000
  /\ mock_ops (flash s) = [OpErase 0]
  /\ lines (serial s)
     = [[TStr "#Erasing chip..."]; [TStr "#Chip erased"]].
Proof. vm_compute. repeat split. Qed.

(** C10. A payload of 2732 base64 digits is within [MESSAGE_MAX_SIZE], so
    the framer accepts it; receive-flash-chunk decodes it to 2049 bytes,
    one more than [dataBuffer] holds. *)
Theorem accepted_payload_overruns_dataBuffer :
  let s0 := mock_setup 4194304 healthy in
  let payload := replicate 2732 (chr "A") in
  let s := handleSerialMessage (chr "%" :: payload ++ [chr endMarker]) s0 in
  let s' :=
    handleData (chip := mock_device) (digest := dump_digest)
      (codec := Base64Model.codec) s in
  Z.of_nat (length payload) <= MESSAGE_MAX_SIZE
  /\ Forall (fun b => payload_byte b = true) payload
  /\ (state s = RECV_FLASH_DATA /\ messageLength s = 2732
      /\ dataNeedsHandling s = true /\ serial s = serial s0
      /\ memFault s = false)
  /\ Z.of_nat (length (dataBuffer s)) = DATA_CHUNK_SIZE
  /\ dataLength s' = 2049
  /\ DATA_CHUNK_SIZE < dataLength s'
  /\ memFault s' = true.
Proof.
  intros s0 payload s s'.
  assert (Hlen : Z.of_nat (length payload) = 2732)
    by (subst payload; rewrite length_replicate; reflexivity).
  assert (Hfit : Z.of_nat (length payload) <= MESSAGE_MAX_SIZE)
    by (rewrite Hlen; vm_compute; discriminate).
  assert (Hall : Forall (fun b => payload_byte b = true) payload)
    by (apply Forall_replicate; reflexivity).
  assert (Hsel : In ("%"%char, RECV_FLASH_DATA) selectors)
    by (vm_compute; tauto).
  subst s' s.
  destruct (framer_receives_frame "%"%char RECV_FLASH_DATA payload s0
              Hsel Hall eq_refl Hfit ltac:(vm_compute; reflexivity))
    as (Hst & Hneeds & Hml & Hmsg & _ & Hser & Hfault & Hbuf & _).
  set (s := handleSerialMessage (chr "%" :: payload ++ [chr endMarker]) s0) in *.
  clearbody s.
  assert (Hout : Z.of_nat (length (Base64Model.decode (message s))) = 2049)
    by (rewrite Hmsg; vm_compute; reflexivity).
  destruct (recv_chunk_length (chip := mock_device) (digest := dump_digest)
              (codec := Base64Model.codec) s Hst
              ltac:(simpl decode_base64; rewrite Hout; lia))
    as (Hdl & Hmf).
  pose proof (eq_trans Hdl Hout) as Hdl'.
  split; [exact Hfit|]. split; [exact Hall|].
  split; [rewrite <- Hlen; repeat split; assumption|].
  split; [rewrite Hbuf; vm_compute; reflexivity|].
  split; [exact Hdl'|]. split; [rewrite Hdl'; reflexivity|].
  rewrite Hmf, Hfault. simpl decode_base64. rewrite Hout. reflexivity.
Qed.

(** C6 as worded ("without reconfiguring the transport") fails: with the
    port running at 115200, a set-baud command for 2000000 is rejected and
    the reset closes the port and reopens it at 9600. *)
Lemma set_baud_rejection_reopens_port :
  let s0 := mock_run [frame "!AMIBAA=="] (mock_setup 4194304 healthy) in
  let s := mock_feed (frame "!gIQeAA==") s0 in
  let s' := mock_handleData s in
  state s = SET_BAUD
  /\ fst (mock_b64ToInt s) = 2000000
  /\ 921600 < fst (mock_b64ToInt s)
  /\ last (begins (serial s)) = Some 115200
  /\ last (begins (serial s')) = Some 9600
  /\ begins (serial s') <> begins (serial s)
  /\ serial s'
     = serial s
       ++ [EPrint (TStr "!ERROR: Invalid baudrate '"); EPrint (THex 2000000);
           EPrintln (TStr "'"); EDelay 1000; EEnd; EBegin 9600].
Proof. vm_compute. repeat split. discriminate. Qed.

(** *** The general theorems at concrete inputs *)

(** C8 at the selector of receive-flash-chunk. *)
Lemma selector_sets_pending_command_witness :
  let s := mock_setup 4194304 healthy in
  In ("%"%char, RECV_FLASH_DATA) selectors
  /\ state (handleSerialMessage [chr "%"] s) = RECV_FLASH_DATA
  /\ receivedMessage (handleSerialMessage [chr "%"] s) = receivedMessage s
  /\ currRecvDataPos (handleSerialMessage [chr "%"] s) = currRecvDataPos s.
Proof.
  intros s.
  assert (Hin : In ("%"%char, RECV_FLASH_DATA) selectors)
    by (vm_compute; tauto).
  split; [exact Hin|].
  exact (proj2 (selector_sets_pending_command "%"%char RECV_FLASH_DATA s Hin)).
Defined.


(** C5 at the value 1024, for a capacity above it, equal to it and below
    it. *)
Lemma set_file_size_accepts_up_to_capacity_witness :
  let s := mock_feed (frame "$AAQAAA==") (mock_setup 4194304 healthy) in
  let at_capacity := mock_feed (frame "$AAQAAA==") (mock_setup 1024 healthy) in
  let above := mock_feed (frame "$AAQAAA==") (mock_setup 1023 healthy) in
  (state s = SET_FILE_SIZE /\ fst (mock_b64ToInt s) <= flashSize s
   /\ fileSize (mock_handleData s) = 1024
   /\ serial (mock_handleData s) = serial s)
  /\ (state at_capacity = SET_FILE_SIZE
      /\ fst (mock_b64ToInt at_capacity) = flashSize at_capacity
      /\ fileSize (mock_handleData at_capacity) = 1024)
  /\ (state above = SET_FILE_SIZE
      /\ flashSize above < fst (mock_b64ToInt above)
      /\ was_reset (mock_handleData above)).
Proof.
  intros s at_capacity above.
  assert (Hst : state s = SET_FILE_SIZE) by reflexivity.
  assert (Hle : fst (mock_b64ToInt s) <= flashSize s)
    by (vm_compute; discriminate).
  assert (Hst1 : state at_capacity = SET_FILE_SIZE) by reflexivity.
  assert (Heq : fst (mock_b64ToInt at_capacity) = flashSize at_capacity)
    by (vm_compute; reflexivity).
  assert (Hst2 : state above = SET_FILE_SIZE) by reflexivity.
  assert (Hgt : flashSize above < fst (mock_b64ToInt above))
    by (vm_compute; reflexivity).
  split; [|split].
  - destruct (proj1 (set_file_size_accepts_up_to_capacity
                       (chip := mock_device) (codec := Base64Model.codec)
                       (digest := dump_digest) s Hst) Hle)
      as (Hfile & Hser & _).
    split; [exact Hst|]. split; [exact Hle|].
    split; [|exact Hser].
    transitivity (fst (mock_b64ToInt s)); [exact Hfile|].
    vm_compute. reflexivity.
  - destruct (proj1 (set_file_size_accepts_up_to_capacity
                       (chip := mock_device) (codec := Base64Model.codec)
                       (digest := dump_digest) at_capacity Hst1)
                (Z.eq_le_incl _ _ Heq))
      as (Hfile & _ & _).
    split; [exact Hst1|]. split; [exact Heq|].
    transitivity (fst (mock_b64ToInt at_capacity)); [exact Hfile|].
    vm_compute. reflexivity.
  - destruct (proj2 (set_file_size_accepts_up_to_capacity
                       (chip := mock_device) (codec := Base64Model.codec)
                       (digest := dump_digest) above Hst2) Hgt)
      as (_ & Hreset & _).
    split; [exact Hst2|]. split; [exact Hgt|]. exact Hreset.
Defined.

(** C3 at a 4-byte chunk, on a healthy chip and on one whose writes fail. *)
Lemma do_flash_advances_cursor_witness :
  let ready := mock_run [frame "%AQIDBA=="] (mock_setup 4194304 healthy) in
  let s := mock_feed (frame "&") ready in
  let broken :=
    mock_run [frame "%AQIDBA=="] (mock_setup 4194304 (writes_fail 7)) in
  let t := mock_feed (frame "&") broken in
  (state s = DO_FLASH /\ 0 <= dataLength s < 2 ^ 32
   /\ 0 <= currentFlashOffset s < 2 ^ 32
   /\ currentFlashOffset s = 0 /\ dataLength s = 4
   /\ currentFlashOffset (mock_handleData s) = 4
   /\ serial (mock_handleData s)
      = serial s ++ [EPrintln (TStr "#W_OK"); EFlush])
  /\ (state t = DO_FLASH /\ 0 <= dataLength t < 2 ^ 32
      /\ 0 <= currentFlashOffset t < 2 ^ 32
      /\ currentFlashOffset (mock_handleData t) = currentFlashOffset t
      /\ was_reset (mock_handleData t)).
Proof.
  intros ready s broken t.
  assert (Hst : state s = DO_FLASH) by reflexivity.
  assert (HL : 0 <= dataLength s < 2 ^ 32) by (vm_compute; split; discriminate || reflexivity).
  assert (Hcur : 0 <= currentFlashOffset s < 2 ^ 32)
    by (vm_compute; split; discriminate || reflexivity).
  assert (Hst' : state t = DO_FLASH) by reflexivity.
  assert (HL' : 0 <= dataLength t < 2 ^ 32)
    by (vm_compute; split; discriminate || reflexivity).
  assert (Hcur' : 0 <= currentFlashOffset t < 2 ^ 32)
    by (vm_compute; split; discriminate || reflexivity).
  split.
  - destruct (do_flash_advances_cursor
                (chip := mock_device) (codec := Base64Model.codec)
                (digest := dump_digest) s Hst HL Hcur)
      as (_ & _ & Hok & _).
    destruct (Hok ltac:(vm_compute; reflexivity)) as (_ & Hexact & Hser).
    split; [exact Hst|]. split; [exact HL|]. split; [exact Hcur|].
    split; [reflexivity|]. split; [reflexivity|].
    split; [|exact Hser].
    transitivity (currentFlashOffset s + dataLength s);
      [exact (Hexact ltac:(vm_compute; reflexivity)) | vm_compute; reflexivity].
  - destruct (do_flash_advances_cursor
                (chip := mock_device) (codec := Base64Model.codec)
                (digest := dump_digest) t Hst' HL' Hcur')
      as (_ & _ & _ & Hbad).
    destruct (Hbad ltac:(vm_compute; discriminate)) as (Hkeep & _ & Hreset).
    split; [exact Hst'|]. split; [exact HL'|]. split; [exact Hcur'|].
    split; [exact Hkeep | exact Hreset].
Defined.

(** C6 at the rates 2000000 and 115200. *)
Lemma set_baud_ceiling_witness :
  let s0 := mock_setup 4194304 healthy in
  let high := mock_feed (frame "!gIQeAA==") s0 in
  let fine := mock_feed (frame "!AMIBAA==") s0 in
  (state high = SET_BAUD /\ 921600 < fst (mock_b64ToInt high)
   /\ was_reset (mock_handleData high)
   /\ begins (serial (mock_handleData high))
      = begins (serial high) ++ [INITIAL_SERIAL_BAUD_RATE])
  /\ (state fine = SET_BAUD /\ fst (mock_b64ToInt fine) <= 921600
      /\ serial (mock_handleData fine)
         = serial fine ++ [EEnd; EBegin (fst (mock_b64ToInt fine))]
      /\ fst (mock_b64ToInt fine) = 115200).
Proof.
  intros s0 high fine.
  assert (Hst : state high = SET_BAUD) by reflexivity.
  assert (Hgt : 921600 < fst (mock_b64ToInt high)) by (vm_compute; reflexivity).
  assert (Hst' : state fine = SET_BAUD) by reflexivity.
  assert (Hle : fst (mock_b64ToInt fine) <= 921600) by (vm_compute; discriminate).
  split.
  - destruct (proj1 (set_baud_ceiling
                       (chip := mock_device) (codec := Base64Model.codec)
                       (digest := dump_digest) high Hst) Hgt)
      as (_ & Hreset & Hbegins & _).
    split; [exact Hst|]. split; [exact Hgt|].
    split; [exact Hreset | exact Hbegins].
  - destruct (proj2 (set_baud_ceiling
                       (chip := mock_device) (codec := Base64Model.codec)
                       (digest := dump_digest) fine Hst') Hle)
      as (Hser & _).
    split; [exact Hst'|]. split; [exact Hle|].
    split; [exact Hser | vm_compute; reflexivity].
Defined.


(** *** Scenarios of the protocol description *)

(** A chip that reports status 7 on the third block: the first three blocks
    are erased, one error line names offset 65536, the session is reset and
    no completion message follows. *)
Example do_erase_third_block_fails :
  let s := mock_run [frame "^"] (mock_setup 4194304 (erase_fails_at 65536 7)) in
  mock_ops (flash s) = [OpErase 0; OpErase 32768; OpErase 65536]
  /\ lines (serial s)
     = [[TStr "#Erasing chip..."];
        [TStr "!ERROR: Flash error during erase in block at "; TDec 65536;
         TStr " | Err "; TDec 7]]
  /\ filter (fun l => is_error_line l = true) (lines (serial s))
     = [[TStr "!ERROR: Flash error during erase in block at "; TDec 65536;
         TStr " | Err "; TDec 7]]
  /\ was_reset (emit (EDelay 1) s).
Proof. vm_compute. repeat split. Qed.

(** A healthy chip of 4 MiB: all 128 blocks are erased. *)
Example do_erase_healthy_chip :
  let s := mock_run [frame "^"] (mock_setup 4194304 healthy) in
  length (mock_ops (flash s)) = 128%nat
  /\ last (mock_ops (flash s)) = Some (OpErase 4161536)
  /\ last (lines (serial s)) = Some [TStr "#Chip erased"].
Proof. vm_compute. repeat split. Qed.

(** Chunk, checksum, write: the checksum line carries the digest of the four
    bytes, the write is acknowledged and the cursor moves from 0 to 4. *)
Example chunk_then_flash :
  let s := mock_run [frame "%AQIDBA=="; frame "&"]
             (mock_setup 4194304 healthy) in
  lines (serial s) = [[TStr "@01020304"]; [TStr "#W_OK"]]
  /\ filter (fun l => is_checksum_line l = true) (lines (serial s))
     = [[TStr "@01020304"]]
  /\ mock_ops (flash s) = [OpWrite 0 [1; 2; 3; 4]]
  /\ currentFlashOffset s = 4 /\ dataLength s = 0.
Proof. vm_compute. repeat split. Qed.

(** The identification report of the test chip. *)
Example report_info :
  let s := mock_run [frame "("] (mock_setup 4194304 healthy) in
  lines (serial s)
  = [[TStr "#JEDEC ID: 0x"; THex 15679510];
     [TStr "#Man ID: 0x"; THex 239];
     [TStr "#Memory ID: 0x"; THex 64];
     [TStr "#Capacity: "; TDec 4194304];
     [TStr "#Max Pages: "; TDec 16384]].
Proof. vm_compute. reflexivity. Qed.

(** * Further properties of the firmware *)

Section Coverage.
Context {Flash : Type} {chip : FlashDevice Flash} {digest : Digest}
  {codec : Codec}.

Implicit Types s : Session Flash.

(** ** The framer and the rest of the session *)


Lemma handleSerialByte_length rcvData s :
  length (receivedMessage (handleSerialByte rcvData s))
  = length (receivedMessage s).
Proof.
  destruct s. unfold handleSerialByte, store_receivedMessage. session_cbv.
  split_ifs; rewrite ?length_insert; reflexivity.
Qed.



Lemma handleSerialMessage_length (avail : list Z) : forall s,
  length (receivedMessage (handleSerialMessage avail s))
  = length (receivedMessage s).
Proof.
  induction avail as [|b rest IH]; intros s; [reflexivity|].
  simpl handleSerialMessage. rewrite IH. apply handleSerialByte_length.
Qed.


(** ** The dispatcher and the rest of the session *)

Lemma eraseChip_from_S (todo : nat) i s :
  eraseChip_from (S todo) i s
  = if negb
         (flash_error (eraseBlock32K (wrap_u32 (wrap_s32 (32768 * i))) (flash s))
          =? 0)
    then
      resetState
        (emit (EPrintln
                 (TDec (flash_error
                          (eraseBlock32K (wrap_u32 (wrap_s32 (32768 * i)))
                             (flash s)))))
           (emit (EPrint (TStr " | Err "))
              (emit (EPrint (TDec (wrap_s32 (32768 * i))))
                 (emit (EPrint
                          (TStr "!ERROR: Flash error during erase in block at "))
                    (set_flash
                       (eraseBlock32K (wrap_u32 (wrap_s32 (32768 * i)))
                          (flash s)) s)))))
    else
      eraseChip_from todo (wrap_s32 (i + 1))
        (emit (EDelay 1)
           (set_flash
              (eraseBlock32K (wrap_u32 (wrap_s32 (32768 * i))) (flash s)) s)).
Proof. destruct s. reflexivity. Qed.

(** Whatever the chip answers, the erase loop changes the chip and the
    trace, and on a failure resets; nothing else. *)
Lemma eraseChip_from_shape (todo : nat) : forall i s,
  exists dev tr,
    eraseChip_from todo i s = set_serial tr (set_flash dev s)
    \/ eraseChip_from todo i s = resetState (set_serial tr (set_flash dev s)).
Proof.
  induction todo as [|todo IH]; intros i s.
  - exists (flash s), (serial s ++ [EPrintln (TStr "#Chip erased")]).
    left. destruct s. reflexivity.
  - rewrite eraseChip_from_S.
    destruct (negb _).
    + exists (eraseBlock32K (wrap_u32 (wrap_s32 (32768 * i))) (flash s)),
        (serial s
         ++ [EPrint (TStr "!ERROR: Flash error during erase in block at ");
             EPrint (TDec (wrap_s32 (32768 * i)));
             EPrint (TStr " | Err ");
             EPrintln
               (TDec (flash_error
                        (eraseBlock32K (wrap_u32 (wrap_s32 (32768 * i)))
                           (flash s))))]).
      right. destruct s. session_cbv. rewrite <- !app_assoc. reflexivity.
    + destruct (IH (wrap_s32 (i + 1))
                  (emit (EDelay 1)
                     (set_flash
                        (eraseBlock32K (wrap_u32 (wrap_s32 (32768 * i)))
                           (flash s)) s)))
        as (dev & tr & [Heq | Heq]); rewrite Heq; exists dev, tr;
        [left | right]; destruct s; session_cbv; reflexivity.
Qed.

(** What no command changes, and which commands change what. *)
Lemma handleData_frame s :
  messageLength (handleData s) = 0
  /\ dataNeedsHandling (handleData s) = false
  /\ flashSize (handleData s) = flashSize s
  /\ receivedMessage (handleData s) = receivedMessage s
  /\ (currRecvDataPos (handleData s) = currRecvDataPos s
      \/ currRecvDataPos (handleData s) = 0)
  /\ (state (handleData s) = state s \/ state (handleData s) = NONE)
  /\ (state s <> DO_FLASH ->
      currentFlashOffset (handleData s) = currentFlashOffset s)
  /\ (state s <> DO_ERASE -> state s <> DO_FLASH ->
      flash (handleData s) = flash s)
  /\ (state s <> RECV_FLASH_DATA -> state s <> DO_FLASH ->
      dataLength (handleData s) = dataLength s).
Proof.
  destruct s as [st dev size cur er wr fs rm ml pos need buf len tr mf].
  session_cbv. destruct st; session_cbv;
    try match goal with
        | |- context [eraseChip_from ?n ?i ?x] =>
            destruct (eraseChip_from_shape n i x) as (dev' & tr' & [Heq | Heq]);
            rewrite Heq; session_cbv
        end;
    split_ifs;
    repeat match goal with
           | |- _ /\ _ => split
           end;
    intros; try congruence; auto.
Qed.







(** X3. Whatever the command and however it ends (done, rejected, device
    error), the dispatcher leaves no message behind: afterwards the message
    length is 0 and no frame is waiting. *)
Theorem dispatcher_clears_the_frame s :
  messageLength (handleData s) = 0 /\ dataNeedsHandling (handleData s) = false.
Proof.
  destruct (handleData_frame s) as (H1 & H2 & _). split; assumption.
Qed.



(** ** More on framing *)

Lemma framer_accumulates_fields (payload : list Z) s :
  Forall (fun b => payload_byte b = true) payload ->
  0 <= currRecvDataPos s ->
  currRecvDataPos s + Z.of_nat (length payload) <= MESSAGE_MAX_SIZE ->
  Z.of_nat (length (receivedMessage s)) = MESSAGE_MAX_SIZE ->
  let s' := handleSerialMessage payload s in
  currRecvDataPos s' = currRecvDataPos s + Z.of_nat (length payload)
  /\ take (Z.to_nat (currRecvDataPos s')) (receivedMessage s')
     = take (Z.to_nat (currRecvDataPos s)) (receivedMessage s) ++ payload
  /\ serial s' = serial s /\ memFault s' = memFault s
  /\ state s' = state s /\ messageLength s' = messageLength s
  /\ dataNeedsHandling s' = dataNeedsHandling s.
Proof.
  intros Hall Hpos Hfit Hrm s'. subst s'.
  destruct (framer_accumulates payload s Hall Hpos Hfit Hrm)
    as (Heq & _ & Htake).
  assert (Hcur : currRecvDataPos (handleSerialMessage payload s)
                 = currRecvDataPos s + Z.of_nat (length payload))
    by (rewrite Heq; destruct s; reflexivity).
  split; [exact Hcur|]. split; [rewrite Hcur; exact Htake|].
  repeat split; rewrite Heq; destruct s; reflexivity.
Qed.

(** X6. Payload bytes that fit between the fill cursor and the end of the
    receive buffer are stored there in order; the framer prints nothing,
    stores nothing outside the buffer and leaves the pending command and
    the last message length alone. *)
Theorem framer_stores_payload_in_bounds (payload : list Z) s :
  Forall (fun b => payload_byte b = true) payload ->
  0 <= currRecvDataPos s ->
  currRecvDataPos s + Z.of_nat (length payload) <= MESSAGE_MAX_SIZE ->
  Z.of_nat (length (receivedMessage s)) = MESSAGE_MAX_SIZE ->
  let s' := handleSerialMessage payload s in
  currRecvDataPos s' = currRecvDataPos s + Z.of_nat (length payload)
  /\ take (Z.to_nat (currRecvDataPos s')) (receivedMessage s')
     = take (Z.to_nat (currRecvDataPos s)) (receivedMessage s) ++ payload
  /\ serial s' = serial s /\ memFault s' = memFault s
  /\ state s' = state s /\ messageLength s' = messageLength s
  /\ dataNeedsHandling s' = dataNeedsHandling s.
Proof. apply framer_accumulates_fields. Qed.

(** X7. When a frame already holds [MESSAGE_MAX_SIZE] payload bytes, the
    next payload byte is stored one past the end of the receive buffer;
    then the overflow error is printed and the session reset. *)
Theorem framer_overflow_after_full_buffer (payload : list Z) (b : Z) s :
  Forall (fun c => payload_byte c = true) payload ->
  payload_byte b = true ->
  currRecvDataPos s = 0 ->
  Z.of_nat (length payload) = MESSAGE_MAX_SIZE ->
  Z.of_nat (length (receivedMessage s)) = MESSAGE_MAX_SIZE ->
  let full := handleSerialMessage payload s in
  let s' := handleSerialMessage (payload ++ [b]) s in
  (serial full = serial s /\ memFault full = memFault s)
  /\ memFault s' = true
  /\ serial s' = serial s ++ EPrintln (TStr overflow_message) :: reset_events
  /\ was_reset s'.
Proof.
  intros Hall Hb Hpos Hlen Hrm full s'. subst full s'.
  destruct (framer_overflow_is_late payload b s Hall Hb Hpos Hlen Hrm)
    as ((Hser & Hfault & Hcur) & Hstep & Hbad & Hout).
  split; [split; assumption|]. split; [exact Hbad|]. split; [exact Hout|].
  rewrite Hstep.
  destruct (handleSerialByte_overflows b _ Hb Hcur) as (Heq & _).
  rewrite Heq. apply resetState_was_reset.
Qed.

(** X8. A frame that starts at the beginning of the receive buffer (a
    selector, a payload of at most [MESSAGE_MAX_SIZE] payload bytes, the
    terminator) reaches the dispatcher intact: the command is pending, the
    message is the payload, and nothing was printed or stored out of
    bounds. *)
Theorem framer_delivers_frame (c : ascii) (cmd : states) (payload : list Z) s :
  In (c, cmd) selectors ->
  Forall (fun b => payload_byte b = true) payload ->
  currRecvDataPos s = 0 ->
  Z.of_nat (length payload) <= MESSAGE_MAX_SIZE ->
  Z.of_nat (length (receivedMessage s)) = MESSAGE_MAX_SIZE ->
  let s' := handleSerialMessage (chr c :: payload ++ [chr endMarker]) s in
  state s' = cmd /\ dataNeedsHandling s' = true
  /\ messageLength s' = Z.of_nat (length payload)
  /\ message s' = payload
  /\ currRecvDataPos s' = 0
  /\ serial s' = serial s /\ memFault s' = memFault s.
Proof.
  intros Hin Hall Hpos Hfit Hrm.
  destruct (framer_receives_frame c cmd payload s Hin Hall Hpos Hfit Hrm)
    as (H1 & H2 & H3 & H4 & H5 & H6 & H7 & _).
  cbv zeta. repeat split; assumption.
Qed.

(** X9. Frames that arrive in one burst are not queued: the framer reads
    all available bytes before the dispatcher runs, so of two frames only
    the second is dispatched, with its own command and payload. *)
Theorem burst_keeps_only_last_frame
    (c1 c2 : ascii) (cmd1 cmd2 : states) (p1 p2 : list Z) s :
  In (c1, cmd1) selectors -> In (c2, cmd2) selectors ->
  Forall (fun b => payload_byte b = true) p1 ->
  Forall (fun b => payload_byte b = true) p2 ->
  currRecvDataPos s = 0 ->
  Z.of_nat (length p1) <= MESSAGE_MAX_SIZE ->
  Z.of_nat (length p2) <= MESSAGE_MAX_SIZE ->
  Z.of_nat (length (receivedMessage s)) = MESSAGE_MAX_SIZE ->
  let s' :=
    handleSerialMessage
      ((chr c1 :: p1 ++ [chr endMarker]) ++ (chr c2 :: p2 ++ [chr endMarker]))
      s in
  state s' = cmd2 /\ message s' = p2
  /\ messageLength s' = Z.of_nat (length p2)
  /\ dataNeedsHandling s' = true
  /\ serial s' = serial s /\ memFault s' = memFault s.
Proof.
  intros Hin1 Hin2 Hall1 Hall2 Hpos Hfit1 Hfit2 Hrm s'. subst s'.
  rewrite handleSerialMessage_app.
  destruct (framer_receives_frame c1 cmd1 p1 s Hin1 Hall1 Hpos Hfit1 Hrm)
    as (_ & _ & _ & _ & Hpos1 & Hser1 & Hfault1 & _).
  pose proof (handleSerialMessage_length (chr c1 :: p1 ++ [chr endMarker]) s)
    as Hlen1.
  set (s1 := handleSerialMessage (chr c1 :: p1 ++ [chr endMarker]) s) in *.
  clearbody s1.
  destruct (framer_receives_frame c2 cmd2 p2 s1 Hin2 Hall2 Hpos1 Hfit2
              ltac:(rewrite Hlen1; exact Hrm))
    as (H1 & H2 & H3 & H4 & _ & H6 & H7 & _).
  repeat split; try assumption; congruence.
Qed.

(** X10. A selector byte in the middle of a payload is not stored: it
    replaces the pending command, and the message handed to the dispatcher
    is the payload without it. *)
Theorem selector_inside_payload_is_a_command
    (c0 c : ascii) (cmd0 cmd : states) (p1 p2 : list Z) s :
  In (c0, cmd0) selectors -> In (c, cmd) selectors ->
  Forall (fun b => payload_byte b = true) p1 ->
  Forall (fun b => payload_byte b = true) p2 ->
  currRecvDataPos s = 0 ->
  Z.of_nat (length p1) + Z.of_nat (length p2) <= MESSAGE_MAX_SIZE ->
  Z.of_nat (length (receivedMessage s)) = MESSAGE_MAX_SIZE ->
  let s' :=
    handleSerialMessage (chr c0 :: p1 ++ chr c :: p2 ++ [chr endMarker]) s in
  state s' = cmd /\ message s' = p1 ++ p2
  /\ messageLength s' = Z.of_nat (length p1) + Z.of_nat (length p2)
  /\ dataNeedsHandling s' = true
  /\ serial s' = serial s /\ memFault s' = memFault s.
Proof.
  intros Hin0 Hin Hall1 Hall2 Hpos Hfit Hrm s'. subst s'.
  simpl handleSerialMessage. rewrite (handleSerialByte_selector c0 cmd0 s Hin0).
  rewrite handleSerialMessage_app. simpl handleSerialMessage.
  assert (HposA : currRecvDataPos (set_state cmd0 s) = 0)
    by (destruct s; exact Hpos).
  assert (HrmA : Z.of_nat (length (receivedMessage (set_state cmd0 s)))
                 = MESSAGE_MAX_SIZE) by (destruct s; exact Hrm).
  assert (HserA : serial (set_state cmd0 s) = serial s
                  /\ memFault (set_state cmd0 s) = memFault s)
    by (destruct s; split; reflexivity).
  destruct (framer_accumulates_fields p1 (set_state cmd0 s) Hall1
              ltac:(lia) ltac:(lia) HrmA)
    as (Hpos1 & Htake1 & Hser1 & Hfault1 & _).
  pose proof (handleSerialMessage_length p1 (set_state cmd0 s)) as Hlen1.
  set (s1 := handleSerialMessage p1 (set_state cmd0 s)) in *. clearbody s1.
  rewrite HposA, Z.add_0_l in Hpos1.
  rewrite HposA in Htake1. change (Z.to_nat 0) with O in Htake1.
  rewrite take_0, app_nil_l in Htake1.
  rewrite (handleSerialByte_selector c cmd s1 Hin).
  rewrite handleSerialMessage_app. simpl handleSerialMessage.
  rewrite handleSerialByte_endMarker.
  assert (HposB : currRecvDataPos (set_state cmd s1) = Z.of_nat (length p1))
    by (destruct s1; exact Hpos1).
  assert (HrmB : receivedMessage (set_state cmd s1) = receivedMessage s1)
    by (destruct s1; reflexivity).
  assert (HserB : serial (set_state cmd s1) = serial s1
                  /\ memFault (set_state cmd s1) = memFault s1
                  /\ state (set_state cmd s1) = cmd)
    by (destruct s1; repeat split; reflexivity).
  destruct (framer_accumulates_fields p2 (set_state cmd s1) Hall2
              ltac:(lia) ltac:(lia)
              ltac:(rewrite HrmB, Hlen1; exact HrmA))
    as (Hpos2 & Htake2 & Hser2 & Hfault2 & Hst2 & _).
  set (s2 := handleSerialMessage p2 (set_state cmd s1)) in *. clearbody s2.
  rewrite HposB in Hpos2, Htake2. rewrite Hpos1 in Htake1.
  rewrite HrmB, Htake1 in Htake2.
  destruct HserA as (HserA & HfaultA). destruct HserB as (HserB & HfaultB & HstB).
  rewrite MESSAGE_MAX_SIZE_value in Hfit.
  destruct s2. session_cbv_in Hpos2. session_cbv_in Htake2.
  session_cbv_in Hser2. session_cbv_in Hfault2. session_cbv_in Hst2.
  session_cbv. subst.
  rewrite wrap_u32_small by lia.
  repeat split; try reflexivity; try assumption; congruence.
Qed.

(** ** More on the commands *)

(** X11. On a chip whose blocks all erase well, do-erase erases the whole
    32 KiB blocks that fit the chip size, in ascending order from offset 0,
    and then prints the completion line; it never erases beyond the chip
    size, and what is left after the last whole block is shorter than a
    block. *)
Theorem do_erase_erases_whole_blocks s :
  state s = DO_ERASE ->
  0 <= flashSize s < 2 ^ 32 ->
  let blocks := Z.to_nat (erase_block_count (flashSize s)) in
  (forall k, (k < blocks)%nat ->
             flash_error (erase_blocks (S k) 0 (flash s)) = 0) ->
  let s' := handleData s in
  flash s' = erase_blocks blocks 0 (flash s)
  /\ serial s'
     = serial s ++ [EPrintln (TStr "#Erasing chip..."); EFlush]
       ++ replicate blocks (EDelay 1) ++ [EPrintln (TStr "#Chip erased")]
  /\ 32768 * Z.of_nat blocks <= flashSize s < 32768 * Z.of_nat blocks + 32768
  /\ state s' = DO_ERASE.
Proof.
  intros Hst Hsize blocks Hok s'. subst s'.
  pose proof (erase_block_count_bound _ Hsize) as Hcount.
  pose proof (erase_block_count_truncates (flashSize s) ltac:(lia)) as Htr.
  unfold handleData. rewrite Hst. unfold eraseChip.
  destruct s. session_cbv_in Hst. session_cbv_in Hsize. session_cbv_in Hcount.
  session_cbv_in Htr. session_cbv_in blocks. session_cbv_in Hok.
  session_cbv. fold blocks.
  rewrite eraseChip_from_ok; [| lia | subst blocks; lia | exact Hok].
  session_cbv. rewrite <- !app_assoc.
  split; [reflexivity|]. split; [reflexivity|]. split; [|exact Hst].
  subst blocks. rewrite Z2Nat.id by lia. exact Htr.
Qed.

(** X12. At the first block whose erase makes the chip report a nonzero
    status, do-erase prints one error line with the offset of that block
    and the status, resets the session and stops: the blocks behind it are
    not erased and no completion line is printed. *)
Theorem do_erase_stops_at_first_bad_block s (j : nat) :
  state s = DO_ERASE ->
  0 <= flashSize s < 2 ^ 32 ->
  (j < Z.to_nat (erase_block_count (flashSize s)))%nat ->
  (forall k, (k < j)%nat ->
             flash_error (erase_blocks (S k) 0 (flash s)) = 0) ->
  flash_error (erase_blocks (S j) 0 (flash s)) <> 0 ->
  let s' := handleData s in
  flash s' = erase_blocks (S j) 0 (flash s)
  /\ serial s'
     = serial s ++ [EPrintln (TStr "#Erasing chip..."); EFlush]
       ++ replicate j (EDelay 1)
       ++ [EPrint (TStr "!ERROR: Flash error during erase in block at ");
           EPrint (TDec (wrap_s32 (32768 * Z.of_nat j)));
           EPrint (TStr " | Err ");
           EPrintln (TDec (flash_error (erase_blocks (S j) 0 (flash s))))]
       ++ reset_events
  /\ was_reset s'
  /\ (Z.of_nat j < 65536 ->
      wrap_s32 (32768 * Z.of_nat j) = 32768 * Z.of_nat j).
Proof.
  intros Hst Hsize Hj Hok Hbad s'.
  destruct (do_erase_stops_at_first_failure s j Hst Hsize Hj Hok Hbad)
    as (Hdev & Hser & Hreset).
  repeat split; try assumption; try apply Hreset.
  intros Hsmall. apply wrap_s32_small. lia.
Qed.

Lemma eraseChip_from_congr (todo : nat) : forall i s t,
  flash t = flash s -> serial t = serial s ->
  flash (eraseChip_from todo i t) = flash (eraseChip_from todo i s)
  /\ serial (eraseChip_from todo i t) = serial (eraseChip_from todo i s).
Proof.
  induction todo as [|todo IH]; intros i s t Hdev Hser.
  - destruct s, t. session_cbv_in Hdev. session_cbv_in Hser. subst.
    simpl eraseChip_from. session_cbv. split; reflexivity.
  - rewrite !eraseChip_from_S. rewrite Hdev.
    destruct (negb _).
    + destruct s, t. session_cbv_in Hdev. session_cbv_in Hser. subst.
      session_cbv. split; reflexivity.
    + apply IH.
      * destruct s, t. reflexivity.
      * destruct s, t. session_cbv_in Hser. subst. reflexivity.
Qed.

(** X13. The flags and the file size are recorded but never consulted:
    do-erase and do-flash do to the chip, print and move the write cursor
    exactly the same whatever [shouldDoErase], [shouldDoWrite] and
    [fileSize] hold. *)
Theorem do_commands_ignore_flags_and_file_size
    (er wr : bool) (size : Z) s :
  state s = DO_ERASE \/ state s = DO_FLASH ->
  let t := set_fileSize size (set_shouldDoWrite wr (set_shouldDoErase er s)) in
  flash (handleData t) = flash (handleData s)
  /\ serial (handleData t) = serial (handleData s)
  /\ currentFlashOffset (handleData t) = currentFlashOffset (handleData s).
Proof.
  intros Hst t. subst t.
  destruct s as [st dev fsz cur er0 wr0 fs rm ml pos need buf len tr mf].
  session_cbv_in Hst. destruct Hst as [-> | ->]; session_cbv.
  - destruct (eraseChip_from_congr (Z.to_nat (erase_block_count fsz)) 0
                (mkSession DO_ERASE dev fsz cur er0 wr0 fs rm ml pos need buf
                   len ((tr ++ [EPrintln (TStr "#Erasing chip...")]) ++ [EFlush])
                   mf)
                (mkSession DO_ERASE dev fsz cur er wr size rm ml pos need buf
                   len ((tr ++ [EPrintln (TStr "#Erasing chip...")]) ++ [EFlush])
                   mf) eq_refl eq_refl) as (Hdev & Hser).
    session_cbv_in Hdev. session_cbv_in Hser.
    destruct (eraseChip_from_shape (Z.to_nat (erase_block_count fsz)) 0
                (mkSession DO_ERASE dev fsz cur er0 wr0 fs rm ml pos need buf
                   len ((tr ++ [EPrintln (TStr "#Erasing chip...")]) ++ [EFlush])
                   mf)) as (d1 & t1 & [H1 | H1]);
      destruct (eraseChip_from_shape (Z.to_nat (erase_block_count fsz)) 0
                  (mkSession DO_ERASE dev fsz cur er wr size rm ml pos need buf
                     len ((tr ++ [EPrintln (TStr "#Erasing chip...")]) ++ [EFlush])
                     mf)) as (d2 & t2 & [H2 | H2]);
      rewrite H1, H2 in *; session_cbv_in Hdev; session_cbv_in Hser;
      session_cbv; repeat split; assumption.
  - split_ifs; repeat split.
Qed.

(** X14. report-info only prints.  When the chip does not answer (id 0) it
    prints one error line and, unlike every other error, does not reset;
    otherwise it prints five information lines.  Either way the session is
    as before apart from the trace and the cleared frame. *)
Theorem report_info_only_prints s :
  state s = SEND_FLASH_INFO ->
  let id := wrap_u32 (getJEDECID (flash s)) in
  let s' := handleData s in
  s' = handled (set_serial (serial s') s)
  /\ (id = 0 ->
      serial s'
      = serial s
        ++ [EPrintln
              (TStr "!ERROR: Connection to flash failed; check wiring.")])
  /\ (id <> 0 ->
      serial s'
      = serial s
        ++ [EPrint (TStr "#JEDEC ID: 0x"); EPrintln (THex id);
            EPrint (TStr "#Man ID: 0x");
            EPrintln (THex (to_byte (Z.shiftr id 16)));
            EPrint (TStr "#Memory ID: 0x");
            EPrintln (THex (to_byte (Z.shiftr id 8)));
            EPrint (TStr "#Capacity: "); EPrintln (TDec (flashSize s));
            EPrint (TStr "#Max Pages: ");
            EPrintln (TDec (getMaxPage (flash s)))]).
Proof.
  intros Hst id s'. subst id s'.
  destruct s as [st dev fsz cur er wr fs rm ml pos need buf len tr mf].
  session_cbv_in Hst. subst. session_cbv.
  destruct (Z.eqb_spec (wrap_u32 (getJEDECID dev)) 0) as [Hz | Hnz];
    session_cbv; rewrite <- ?app_assoc;
    (split; [reflexivity|]); split; intros H;
    first [reflexivity | contradiction | congruence].
Qed.

(** X15. set-erase-flag and set-write-flag store whether the decoded integer
    is nonzero, each in its own flag, print nothing and never reset; a
    payload that decodes to no byte clears the flag. *)
Theorem flag_commands_store_truthiness s :
  (state s = SET_ERASE ->
     shouldDoErase (handleData s) = negb (fst (b64ToInt s) =? 0)
     /\ shouldDoWrite (handleData s) = shouldDoWrite s
     /\ serial (handleData s) = serial s
     /\ state (handleData s) = SET_ERASE
     /\ (decode_base64 (message s) = [] ->
         shouldDoErase (handleData s) = false))
  /\ (state s = SET_WRITE ->
       shouldDoWrite (handleData s) = negb (fst (b64ToInt s) =? 0)
       /\ shouldDoErase (handleData s) = shouldDoErase s
       /\ serial (handleData s) = serial s
       /\ state (handleData s) = SET_WRITE
       /\ (decode_base64 (message s) = [] ->
           shouldDoWrite (handleData s) = false)).
Proof.
  destruct s as [st dev fsz cur er wr fs rm ml pos need buf len tr mf].
  session_cbv.
  split; intros ->; session_cbv; split_ifs;
    (repeat split; intros Hnil; rewrite Hnil; reflexivity).
Qed.


(** X17. receive-flash-chunk followed by do-flash: the bytes written to the
    chip, at the write cursor, are exactly the decoded bytes whose digest
    the checksum line carried; on status 0 the cursor advances by their
    number. *)
Theorem chunk_then_flash_writes_decoded_bytes s :
  state s = RECV_FLASH_DATA ->
  let out := decode_base64 (message s) in
  0 < Z.of_nat (length out) <= DATA_CHUNK_SIZE ->
  0 <= currentFlashOffset s < 2 ^ 32 ->
  let s1 := handleData s in
  let s2 := handleData (handleSerialMessage [chr "&"; chr endMarker] s1) in
  let dev := writeByteArray (currentFlashOffset s) out (flash s) in
  flash s2 = dev /\ dataLength s2 = 0
  /\ (flash_error dev = 0 ->
      currentFlashOffset s2
      = wrap_u32 (currentFlashOffset s + Z.of_nat (length out))
      /\ serial s2
         = serial s
           ++ [EPrintln (TStr ("@" ++ md5_hex out));
               EPrintln (TStr "#W_OK"); EFlush]).
Proof.
  intros Hst out Hlen Hcur s1 s2 dev. subst s2 dev.
  destruct s as [st dv fsz cur er wr fs rm ml pos need buf len tr mf].
  session_cbv_in Hst. session_cbv_in Hcur. subst st.
  unfold message in out. session_cbv_in out.
  unfold DATA_CHUNK_SIZE in Hlen.
  assert (Hs1 : s1
                = mkSession RECV_FLASH_DATA dv fsz cur er wr fs rm 0 pos false
                    (out ++ drop (length out) buf) (Z.of_nat (length out))
                    (tr ++ [EPrintln (TStr ("@" ++ md5_hex out))]) mf).
  { subst s1. session_cbv. fold out.
    rewrite wrap_u32_small by lia.
    replace (Z.of_nat (length out) =? 0) with false
      by (symmetry; apply Z.eqb_neq; lia).
    replace (DATA_CHUNK_SIZE <? Z.of_nat (length out)) with false
      by (symmetry; apply Z.ltb_ge; unfold DATA_CHUNK_SIZE; lia).
    session_cbv. rewrite Nat2Z.id, take_app_length. reflexivity. }
  rewrite Hs1. clear Hs1 s1.
  simpl handleSerialMessage.
  rewrite (handleSerialByte_selector "&"%char DO_FLASH)
    by (vm_compute; tauto).
  rewrite handleSerialByte_endMarker. session_cbv.
  rewrite wrap_u32_s32, (wrap_u32_small (Z.of_nat (length out))) by lia.
  rewrite Nat2Z.id, take_app_length.
  destruct (Z.eqb_spec (flash_error (writeByteArray cur out dv)) 0)
    as [Hok | Hbad]; simpl negb; cbv iota; session_cbv.
  - split; [reflexivity|]. split; [reflexivity|]. intros _.
    rewrite wrap_u32_add_s32, <- !app_assoc. split; reflexivity.
  - split; [reflexivity|]. split; [reflexivity|]. intros Hz. contradiction.
Qed.

(** Commands whose decoded bytes fit [dataBuffer] store nothing outside of
    it. *)
Lemma handleData_memFault s :
  Z.of_nat (length (decode_base64 (message s))) <= DATA_CHUNK_SIZE ->
  memFault (handleData s) = memFault s.
Proof.
  intros Hfit.
  destruct s as [st dev fsz cur er wr fs rm ml pos need buf len tr mf].
  unfold message in Hfit. session_cbv_in Hfit.
  apply Z.ltb_ge in Hfit.
  destruct st; session_cbv;
    try match goal with
        | |- context [eraseChip_from ?n ?i ?x] =>
            destruct (eraseChip_from_shape n i x) as (dev' & tr' & [Heq | Heq]);
            rewrite Heq; session_cbv
        end;
    rewrite ?Hfit; session_cbv; split_ifs; reflexivity.
Qed.

(** X18. With a codec that yields at most three bytes for four characters,
    a frame of at most 2731 payload bytes is received and handled without
    any store outside [receivedMessage] or [dataBuffer], whatever the
    command. *)
Theorem frames_up_to_2731_bytes_are_memory_safe
    (c : ascii) (cmd : states) (payload : list Z) s :
  (forall m : list Z, (4 * length (decode_base64 m) <= 3 * length m)%nat) ->
  In (c, cmd) selectors ->
  Forall (fun b => payload_byte b = true) payload ->
  currRecvDataPos s = 0 ->
  Z.of_nat (length payload) <= 2731 ->
  Z.of_nat (length (receivedMessage s)) = MESSAGE_MAX_SIZE ->
  let s' := handleSerialMessage (chr c :: payload ++ [chr endMarker]) s in
  memFault s' = memFault s /\ memFault (handleData s') = memFault s.
Proof.
  intros Hcodec Hin Hall Hpos Hlen Hrm s'. subst s'.
  destruct (framer_receives_frame c cmd payload s Hin Hall Hpos
              ltac:(rewrite MESSAGE_MAX_SIZE_value; lia) Hrm)
    as (_ & _ & _ & Hmsg & _ & _ & Hfault & _).
  split; [exact Hfault|].
  rewrite handleData_memFault; [exact Hfault|].
  rewrite Hmsg. pose proof (Hcodec payload). unfold DATA_CHUNK_SIZE. lia.
Qed.

(** X19. The reset command, from any session: pending command, flags, file
    size and framing state get their initial values and the port is
    reopened at 9600; the write cursor, the decoded chunk, the receive
    buffer contents and the chip are left as they are. *)
Theorem reset_command_restores_defaults s :
  let s' := handleData (handleSerialMessage [chr "*"; chr endMarker] s) in
  was_reset s'
  /\ serial s' = serial s ++ reset_events
  /\ currentFlashOffset s' = currentFlashOffset s
  /\ dataLength s' = dataLength s /\ dataBuffer s' = dataBuffer s
  /\ receivedMessage s' = receivedMessage s
  /\ flash s' = flash s /\ flashSize s' = flashSize s.
Proof.
  intros s'. subst s'. simpl handleSerialMessage.
  rewrite (handleSerialByte_selector "*"%char RESET_STATE)
    by (vm_compute; tauto).
  rewrite handleSerialByte_endMarker.
  destruct s. session_cbv. rewrite <- !app_assoc. repeat split.
Qed.

(** X23. do-flash with no chunk waiting (length 0) still calls the chip,
    with an empty write at the write cursor; on status 0 it acknowledges
    and the cursor stays where it is. *)
Theorem do_flash_without_chunk s :
  state s = DO_FLASH ->
  dataLength s = 0 ->
  0 <= currentFlashOffset s < 2 ^ 32 ->
  let dev := writeByteArray (currentFlashOffset s) [] (flash s) in
  flash (handleData s) = dev
  /\ (flash_error dev = 0 ->
      currentFlashOffset (handleData s) = currentFlashOffset s
      /\ serial (handleData s)
         = serial s ++ [EPrintln (TStr "#W_OK"); EFlush]).
Proof.
  intros Hst Hlen Hcur dev. subst dev.
  destruct s as [st dv fsz cur er wr fs rm ml pos need buf len tr mf].
  session_cbv_in Hst. session_cbv_in Hlen. session_cbv_in Hcur. subst.
  session_cbv.
  change (Z.to_nat (wrap_u32 (wrap_s32 0))) with O. rewrite take_0.
  destruct (Z.eqb_spec (flash_error (writeByteArray cur [] dv)) 0)
    as [Hok | Hbad]; simpl negb; cbv iota; session_cbv.
  - split; [reflexivity|]. intros _.
    change (wrap_s32 0) with 0. rewrite Z.add_0_r, wrap_u32_small by exact Hcur.
    rewrite <- !app_assoc. split; reflexivity.
  - split; [reflexivity|]. intros Hz. contradiction.
Qed.

End Coverage.

(** ** byteArrayToHex *)

Lemma hex_digit_spec (nib : Z) :
  0 <= nib < 16 ->
  is_hex_digit (hex_digit nib) = true /\ hex_value (hex_digit nib) = nib.
Proof.
  intros Hn.
  assert (Hcases : nib = 0 \/ nib = 1 \/ nib = 2 \/ nib = 3 \/ nib = 4
                   \/ nib = 5 \/ nib = 6 \/ nib = 7 \/ nib = 8 \/ nib = 9
                   \/ nib = 10 \/ nib = 11 \/ nib = 12 \/ nib = 13
                   \/ nib = 14 \/ nib = 15) by lia.
  repeat (destruct Hcases as [-> | Hcases]; [vm_compute; split; reflexivity|]).
  subst. vm_compute. split; reflexivity.
Qed.

Lemma low_nibble_range (b : Z) : 0 <= Z.land b 15 < 16.
Proof.
  change 15 with (Z.ones 4). rewrite Z.land_ones by lia.
  apply Z.mod_pos_bound. lia.
Qed.

(** X20. The hex dump has two characters for every byte, each of them one
    of 0-9 and A-F. *)
Theorem byteArrayToHex_shape (array : list Z) :
  String.length (byteArrayToHex array) = (2 * length array)%nat
  /\ string_forall is_hex_digit (byteArrayToHex array) = true.
Proof.
  induction array as [|b rest [IHlen IHall]]; [split; reflexivity|].
  simpl byteArrayToHex. simpl String.length. simpl string_forall.
  destruct (hex_digit_spec _ (low_nibble_range (Z.shiftr b 4))) as [Hhi _].
  destruct (hex_digit_spec _ (low_nibble_range b)) as [Hlo _].
  rewrite Hhi, Hlo, IHall, IHlen. split; [simpl length; lia | reflexivity].
Qed.

(** X21. The hex dump loses nothing: reading the digit pairs back gives the
    bytes that were dumped. *)
Theorem byteArrayToHex_round_trip (array : list Z) :
  Forall (fun b => 0 <= b < 256) array ->
  hex_to_bytes (byteArrayToHex array) = array.
Proof.
  induction array as [|b rest IH]; intros Hall; [reflexivity|].
  apply Forall_cons in Hall as [Hb Hrest].
  simpl byteArrayToHex. simpl hex_to_bytes.
  destruct (hex_digit_spec _ (low_nibble_range (Z.shiftr b 4))) as [_ Hhi].
  destruct (hex_digit_spec _ (low_nibble_range b)) as [_ Hlo].
  rewrite Hhi, Hlo, (IH Hrest). f_equal.
  change 15 with (Z.ones 4). rewrite !Z.land_ones by lia.
  rewrite Z.shiftr_div_pow2 by lia. change (2 ^ 4) with 16.
  rewrite (Z.mod_small (b / 16)) by (split; [apply Z.div_pos | apply Z.div_lt_upper_bound]; lia).
  pose proof (Z.div_mod b 16 ltac:(lia)). lia.
Qed.

(** ** Little-endian integers, from the host's side *)

Lemma spec_le_sum_le_bytes32 (v : Z) :
  0 <= v < 2 ^ 32 -> spec_le_sum (le_bytes32 v) = v.
Proof.
  intros Hv. unfold spec_le_sum, le_bytes32. simpl spec_le_sum_from.
  rewrite !Z.shiftl_mul_pow2 by lia.
  change (2 ^ (0 * 8)) with 1. change (2 ^ ((0 + 1) * 8)) with 256.
  change (2 ^ ((0 + 1 + 1) * 8)) with 65536.
  change (2 ^ ((0 + 1 + 1 + 1) * 8)) with 16777216.
  assert (Htop : v / 16777216 mod 256 = v / 16777216).
  { apply Z.mod_small. split; [apply Z.div_pos | apply Z.div_lt_upper_bound]; lia. }
  rewrite Htop.
  replace (v / 16777216) with (v / 65536 / 256)
    by (rewrite Z.div_div by lia; reflexivity).
  replace (v / 65536) with (v / 256 / 256)
    by (rewrite Z.div_div by lia; reflexivity).
  pose proof (Z.div_mod v 256 ltac:(lia)) as H1.
  pose proof (Z.div_mod (v / 256) 256 ltac:(lia)) as H2.
  pose proof (Z.div_mod (v / 256 / 256) 256 ltac:(lia)) as H3.
  lia.
Qed.

Lemma le_bytes32_range (v : Z) : Forall (fun b => 0 <= b < 256) (le_bytes32 v).
Proof.
  unfold le_bytes32.
  repeat (apply Forall_cons; split; [apply Z.mod_pos_bound; lia|]).
  apply Forall_nil. exact I.
Qed.

(** X22. An unsigned 32-bit value that the host sends as four bytes, least
    significant first, is the value [byteArrayToInt] reads; what follows
    the four bytes in the array is not read. *)
Theorem byteArrayToInt_round_trip (v : Z) (tail : list Z) :
  0 <= v < 2 ^ 32 ->
  byteArrayToInt (le_bytes32 v ++ tail) 4 = v.
Proof.
  intros Hv.
  change 4 with (Z.of_nat (length (le_bytes32 v))).
  rewrite byteArrayToInt_app.
  rewrite byteArrayToInt_exact;
    [apply spec_le_sum_le_bytes32, Hv | simpl; lia | apply le_bytes32_range].
Qed.

(** ** The further properties at concrete inputs *)

Lemma payload_bytes_check (l : list Z) :
  forallb payload_byte l = true -> Forall (fun b => payload_byte b = true) l.
Proof.
  induction l as [|b rest IH]; intros Hl; [apply Forall_nil; exact I|].
  simpl in Hl. apply andb_prop in Hl as [Hb Hrest].
  apply Forall_cons. split; [exact Hb | exact (IH Hrest)].
Qed.

#[local] Existing Instance mock_device.
#[local] Existing Instance dump_digest.
#[local] Existing Instance Base64Model.codec.


(** X6 at eight payload bytes on a fresh session. *)
Lemma framer_stores_payload_in_bounds_witness :
  let s := mock_setup 4194304 healthy in
  let payload := bytes_of_string "AQIDBA==" in
  Forall (fun b => payload_byte b = true) payload
  /\ 0 <= currRecvDataPos s
  /\ currRecvDataPos s + Z.of_nat (length payload) <= MESSAGE_MAX_SIZE
  /\ Z.of_nat (length (receivedMessage s)) = MESSAGE_MAX_SIZE
  /\ currRecvDataPos (handleSerialMessage payload s) = 8
  /\ serial (handleSerialMessage payload s) = serial s
  /\ memFault (handleSerialMessage payload s) = memFault s.
Proof.
  intros s payload.
  assert (H1 : Forall (fun b => payload_byte b = true) payload)
    by (apply payload_bytes_check; vm_compute; reflexivity).
  assert (H2 : 0 <= currRecvDataPos s) by (vm_compute; discriminate).
  assert (H3 : currRecvDataPos s + Z.of_nat (length payload)
               <= MESSAGE_MAX_SIZE) by (vm_compute; discriminate).
  assert (H4 : Z.of_nat (length (receivedMessage s)) = MESSAGE_MAX_SIZE)
    by (vm_compute; reflexivity).
  destruct (framer_stores_payload_in_bounds payload s H1 H2 H3 H4)
    as (Hpos & _ & Hser & Hfault & _).
  split; [exact H1|]. split; [exact H2|]. split; [exact H3|].
  split; [exact H4|]. split; [exact Hpos|].
  split; [exact Hser | exact Hfault].
Defined.

(** X7 at 2735 bytes [A] followed by one more. *)
Lemma framer_overflow_after_full_buffer_witness :
  let s := mock_setup 4194304 healthy in
  let payload := replicate 2735 (chr "A") in
  Forall (fun c => payload_byte c = true) payload
  /\ payload_byte (chr "A") = true
  /\ currRecvDataPos s = 0
  /\ Z.of_nat (length payload) = MESSAGE_MAX_SIZE
  /\ Z.of_nat (length (receivedMessage s)) = MESSAGE_MAX_SIZE
  /\ memFault (handleSerialMessage (payload ++ [chr "A"]) s) = true
  /\ was_reset (handleSerialMessage (payload ++ [chr "A"]) s).
Proof.
  intros s payload.
  assert (H1 : Forall (fun c => payload_byte c = true) payload)
    by (apply Forall_replicate; reflexivity).
  assert (H2 : payload_byte (chr "A") = true) by reflexivity.
  assert (H3 : currRecvDataPos s = 0) by reflexivity.
  assert (H4 : Z.of_nat (length payload) = MESSAGE_MAX_SIZE)
    by (unfold payload; rewrite length_replicate; reflexivity).
  assert (H5 : Z.of_nat (length (receivedMessage s)) = MESSAGE_MAX_SIZE)
    by (vm_compute; reflexivity).
  destruct (framer_overflow_after_full_buffer payload (chr "A") s
              H1 H2 H3 H4 H5) as (_ & Hfault & _ & Hreset).
  split; [exact H1|]. split; [exact H2|]. split; [exact H3|].
  split; [exact H4|]. split; [exact H5|].
  split; [exact Hfault | exact Hreset].
Defined.

(** X8 at the frame of a 4-byte chunk. *)
Lemma framer_delivers_frame_witness :
  let s := mock_setup 4194304 healthy in
  let payload := bytes_of_string "AQIDBA==" in
  let s' := handleSerialMessage (chr "%" :: payload ++ [chr endMarker]) s in
  In ("%"%char, RECV_FLASH_DATA) selectors
  /\ Forall (fun b => payload_byte b = true) payload
  /\ currRecvDataPos s = 0
  /\ Z.of_nat (length payload) <= MESSAGE_MAX_SIZE
  /\ Z.of_nat (length (receivedMessage s)) = MESSAGE_MAX_SIZE
  /\ state s' = RECV_FLASH_DATA /\ message s' = payload
  /\ dataNeedsHandling s' = true.
Proof.
  intros s payload s'.
  assert (H1 : In ("%"%char, RECV_FLASH_DATA) selectors)
    by (vm_compute; tauto).
  assert (H2 : Forall (fun b => payload_byte b = true) payload)
    by (apply payload_bytes_check; vm_compute; reflexivity).
  assert (H3 : currRecvDataPos s = 0) by reflexivity.
  assert (H4 : Z.of_nat (length payload) <= MESSAGE_MAX_SIZE)
    by (vm_compute; discriminate).
  assert (H5 : Z.of_nat (length (receivedMessage s)) = MESSAGE_MAX_SIZE)
    by (vm_compute; reflexivity).
  destruct (framer_delivers_frame "%"%char RECV_FLASH_DATA payload s
              H1 H2 H3 H4 H5) as (Hst & Hneeds & _ & Hmsg & _).
  split; [exact H1|]. split; [exact H2|]. split; [exact H3|].
  split; [exact H4|]. split; [exact H5|]. split; [exact Hst|].
  split; [exact Hmsg | exact Hneeds].
Defined.

(** X9 at a set-file-size frame and a chunk frame in one burst. *)
Lemma burst_keeps_only_last_frame_witness :
  let s := mock_setup 4194304 healthy in
  let p1 := bytes_of_string "AAQAAA==" in
  let p2 := bytes_of_string "AQIDBA==" in
  let s' :=
    handleSerialMessage
      ((chr "$" :: p1 ++ [chr endMarker]) ++ (chr "%" :: p2 ++ [chr endMarker]))
      s in
  In ("$"%char, SET_FILE_SIZE) selectors
  /\ In ("%"%char, RECV_FLASH_DATA) selectors
  /\ Forall (fun b => payload_byte b = true) p1
  /\ Forall (fun b => payload_byte b = true) p2
  /\ currRecvDataPos s = 0
  /\ Z.of_nat (length p1) <= MESSAGE_MAX_SIZE
  /\ Z.of_nat (length p2) <= MESSAGE_MAX_SIZE
  /\ Z.of_nat (length (receivedMessage s)) = MESSAGE_MAX_SIZE
  /\ state s' = RECV_FLASH_DATA /\ message s' = p2
  /\ fileSize (handleData s') = 0.
Proof.
  intros s p1 p2 s'.
  assert (H1 : In ("$"%char, SET_FILE_SIZE) selectors) by (vm_compute; tauto).
  assert (H2 : In ("%"%char, RECV_FLASH_DATA) selectors)
    by (vm_compute; tauto).
  assert (H3 : Forall (fun b => payload_byte b = true) p1)
    by (apply payload_bytes_check; vm_compute; reflexivity).
  assert (H4 : Forall (fun b => payload_byte b = true) p2)
    by (apply payload_bytes_check; vm_compute; reflexivity).
  assert (H5 : currRecvDataPos s = 0) by reflexivity.
  assert (H6 : Z.of_nat (length p1) <= MESSAGE_MAX_SIZE)
    by (vm_compute; discriminate).
  assert (H7 : Z.of_nat (length p2) <= MESSAGE_MAX_SIZE)
    by (vm_compute; discriminate).
  assert (H8 : Z.of_nat (length (receivedMessage s)) = MESSAGE_MAX_SIZE)
    by (vm_compute; reflexivity).
  destruct (burst_keeps_only_last_frame "$"%char "%"%char SET_FILE_SIZE
              RECV_FLASH_DATA p1 p2 s H1 H2 H3 H4 H5 H6 H7 H8)
    as (Hst & Hmsg & _).
  split; [exact H1|]. split; [exact H2|]. split; [exact H3|].
  split; [exact H4|]. split; [exact H5|]. split; [exact H6|].
  split; [exact H7|]. split; [exact H8|]. split; [exact Hst|].
  split; [exact Hmsg|]. vm_compute. reflexivity.
Defined.

(** X10 at a chunk frame with the do-flash selector in its middle. *)
Lemma selector_inside_payload_is_a_command_witness :
  let s := mock_setup 4194304 healthy in
  let p1 := bytes_of_string "AQ" in
  let p2 := bytes_of_string "ID" in
  let s' :=
    handleSerialMessage (chr "%" :: p1 ++ chr "&" :: p2 ++ [chr endMarker]) s in
  In ("%"%char, RECV_FLASH_DATA) selectors
  /\ In ("&"%char, DO_FLASH) selectors
  /\ Forall (fun b => payload_byte b = true) p1
  /\ Forall (fun b => payload_byte b = true) p2
  /\ currRecvDataPos s = 0
  /\ Z.of_nat (length p1) + Z.of_nat (length p2) <= MESSAGE_MAX_SIZE
  /\ Z.of_nat (length (receivedMessage s)) = MESSAGE_MAX_SIZE
  /\ state s' = DO_FLASH /\ message s' = p1 ++ p2.
Proof.
  intros s p1 p2 s'.
  assert (H1 : In ("%"%char, RECV_FLASH_DATA) selectors)
    by (vm_compute; tauto).
  assert (H2 : In ("&"%char, DO_FLASH) selectors) by (vm_compute; tauto).
  assert (H3 : Forall (fun b => payload_byte b = true) p1)
    by (apply payload_bytes_check; vm_compute; reflexivity).
  assert (H4 : Forall (fun b => payload_byte b = true) p2)
    by (apply payload_bytes_check; vm_compute; reflexivity).
  assert (H5 : currRecvDataPos s = 0) by reflexivity.
  assert (H6 : Z.of_nat (length p1) + Z.of_nat (length p2)
               <= MESSAGE_MAX_SIZE) by (vm_compute; discriminate).
  assert (H7 : Z.of_nat (length (receivedMessage s)) = MESSAGE_MAX_SIZE)
    by (vm_compute; reflexivity).
  destruct (selector_inside_payload_is_a_command "%"%char "&"%char
              RECV_FLASH_DATA DO_FLASH p1 p2 s H1 H2 H3 H4 H5 H6 H7)
    as (Hst & Hmsg & _).
  split; [exact H1|]. split; [exact H2|]. split; [exact H3|].
  split; [exact H4|]. split; [exact H5|]. split; [exact H6|].
  split; [exact H7|]. split; [exact Hst | exact Hmsg].
Defined.

(** X11 at a healthy chip of three blocks. *)
Lemma do_erase_erases_whole_blocks_witness :
  let s := handleSerialMessage (frame "^") (mock_setup 98304 healthy) in
  state s = DO_ERASE
  /\ 0 <= flashSize s < 2 ^ 32
  /\ (forall k, (k < 3)%nat ->
                flash_error (erase_blocks (S k) 0 (flash s)) = 0)
  /\ mock_ops (flash (handleData s))
     = [OpErase 0; OpErase 32768; OpErase 65536].
Proof.
  intros s.
  assert (H1 : state s = DO_ERASE) by reflexivity.
  assert (H2 : 0 <= flashSize s < 2 ^ 32)
    by (vm_compute; split; [discriminate | reflexivity]).
  assert (H3 : forall k, (k < 3)%nat ->
                 flash_error (erase_blocks (S k) 0 (flash s)) = 0).
  { intros k Hk. destruct k as [|[|[|k]]]; [reflexivity .. | lia]. }
  destruct (do_erase_erases_whole_blocks s H1 H2 H3) as (Hdev & _).
  split; [exact H1|]. split; [exact H2|]. split; [exact H3|].
  rewrite Hdev. reflexivity.
Defined.

(** X12 at a chip whose third block fails with status 7. *)
Lemma do_erase_stops_at_first_bad_block_witness :
  let s :=
    handleSerialMessage (frame "^")
      (mock_setup 4194304 (erase_fails_at 65536 7)) in
  state s = DO_ERASE
  /\ 0 <= flashSize s < 2 ^ 32
  /\ (2 < Z.to_nat (erase_block_count (flashSize s)))%nat
  /\ (forall k, (k < 2)%nat ->
                flash_error (erase_blocks (S k) 0 (flash s)) = 0)
  /\ flash_error (erase_blocks 3 0 (flash s)) <> 0
  /\ mock_ops (flash (handleData s))
     = [OpErase 0; OpErase 32768; OpErase 65536]
  /\ was_reset (handleData s).
Proof.
  intros s.
  assert (H1 : state s = DO_ERASE) by reflexivity.
  assert (H2 : 0 <= flashSize s < 2 ^ 32)
    by (vm_compute; split; [discriminate | reflexivity]).
  assert (H3 : (2 < Z.to_nat (erase_block_count (flashSize s)))%nat)
    by (apply Nat.ltb_lt; vm_compute; reflexivity).
  assert (H4 : forall k, (k < 2)%nat ->
                 flash_error (erase_blocks (S k) 0 (flash s)) = 0).
  { intros k Hk. destruct k as [|[|k]]; [reflexivity .. | lia]. }
  assert (H5 : flash_error (erase_blocks 3 0 (flash s)) <> 0)
    by (vm_compute; discriminate).
  destruct (do_erase_stops_at_first_bad_block s 2 H1 H2 H3 H4 H5)
    as (Hdev & _ & Hreset & _).
  split; [exact H1|]. split; [exact H2|]. split; [exact H3|].
  split; [exact H4|]. split; [exact H5|].
  split; [rewrite Hdev; reflexivity | exact Hreset].
Defined.

(** X13 at do-erase on a chip of three blocks, with the flags set and a
    file size announced. *)
Lemma do_commands_ignore_flags_and_file_size_witness :
  let s := handleSerialMessage (frame "^") (mock_setup 98304 healthy) in
  let t := set_fileSize 1024 (set_shouldDoWrite true (set_shouldDoErase true s)) in
  (state s = DO_ERASE \/ state s = DO_FLASH)
  /\ flash (handleData t) = flash (handleData s)
  /\ serial (handleData t) = serial (handleData s).
Proof.
  intros s t.
  assert (H1 : state s = DO_ERASE \/ state s = DO_FLASH)
    by (left; reflexivity).
  destruct (do_commands_ignore_flags_and_file_size true true 1024 s H1)
    as (Hdev & Hser & _).
  split; [exact H1|]. split; [exact Hdev | exact Hser].
Defined.

(** X14 at the test chip, which answers with an id. *)
Lemma report_info_only_prints_witness :
  let s := handleSerialMessage (frame "(") (mock_setup 4194304 healthy) in
  state s = SEND_FLASH_INFO
  /\ wrap_u32 (getJEDECID (flash s)) <> 0
  /\ handleData s = handled (set_serial (serial (handleData s)) s)
  /\ length (lines (serial (handleData s))) = 5%nat.
Proof.
  intros s.
  assert (H1 : state s = SEND_FLASH_INFO) by reflexivity.
  assert (H2 : wrap_u32 (getJEDECID (flash s)) <> 0)
    by (vm_compute; discriminate).
  destruct (report_info_only_prints s H1) as (Hsame & _ & Hlines).
  split; [exact H1|]. split; [exact H2|]. split; [exact Hsame|].
  rewrite (Hlines H2). reflexivity.
Defined.

(** X15 at the value 1 for the erase flag. *)
Lemma flag_commands_store_truthiness_witness :
  let s := handleSerialMessage (frame "@AQAAAA==") (mock_setup 4194304 healthy) in
  state s = SET_ERASE
  /\ fst (b64ToInt s) = 1
  /\ shouldDoErase (handleData s) = true
  /\ serial (handleData s) = serial s.
Proof.
  intros s.
  assert (H1 : state s = SET_ERASE) by reflexivity.
  assert (H2 : fst (b64ToInt s) = 1) by (vm_compute; reflexivity).
  destruct (proj1 (flag_commands_store_truthiness s) H1)
    as (Hflag & _ & Hser & _).
  split; [exact H1|]. split; [exact H2|]. split; [|exact Hser].
  rewrite Hflag, H2. reflexivity.
Defined.


(** X17 at a 4-byte chunk on a healthy chip. *)
Lemma chunk_then_flash_writes_decoded_bytes_witness :
  let s := handleSerialMessage (frame "%AQIDBA==") (mock_setup 4194304 healthy) in
  let s2 :=
    handleData (handleSerialMessage [chr "&"; chr endMarker] (handleData s)) in
  state s = RECV_FLASH_DATA
  /\ 0 < Z.of_nat (length (decode_base64 (message s))) <= DATA_CHUNK_SIZE
  /\ 0 <= currentFlashOffset s < 2 ^ 32
  /\ decode_base64 (message s) = [1; 2; 3; 4]
  /\ mock_ops (flash s2) = [OpWrite 0 [1; 2; 3; 4]]
  /\ dataLength s2 = 0.
Proof.
  intros s s2.
  assert (H1 : state s = RECV_FLASH_DATA) by reflexivity.
  assert (H2 : 0 < Z.of_nat (length (decode_base64 (message s)))
               <= DATA_CHUNK_SIZE)
    by (vm_compute; split; [reflexivity | discriminate]).
  assert (H3 : 0 <= currentFlashOffset s < 2 ^ 32)
    by (vm_compute; split; [discriminate | reflexivity]).
  assert (H4 : decode_base64 (message s) = [1; 2; 3; 4])
    by (vm_compute; reflexivity).
  destruct (chunk_then_flash_writes_decoded_bytes s H1 H2 H3)
    as (Hdev & Hlen & _).
  split; [exact H1|]. split; [exact H2|]. split; [exact H3|].
  split; [exact H4|]. split; [|exact Hlen].
  unfold s2. rewrite Hdev, H4. reflexivity.
Defined.

(** X18 at the base64 model and a set-file-size frame. *)
Lemma frames_up_to_2731_bytes_are_memory_safe_witness :
  let s := mock_setup 4194304 healthy in
  let payload := bytes_of_string "AAQAAA==" in
  let s' := handleSerialMessage (chr "$" :: payload ++ [chr endMarker]) s in
  (forall m : list Z, (4 * length (decode_base64 m) <= 3 * length m)%nat)
  /\ In ("$"%char, SET_FILE_SIZE) selectors
  /\ Forall (fun b => payload_byte b = true) payload
  /\ currRecvDataPos s = 0
  /\ Z.of_nat (length payload) <= 2731
  /\ Z.of_nat (length (receivedMessage s)) = MESSAGE_MAX_SIZE
  /\ memFault (handleData s') = memFault s.
Proof.
  intros s payload s'.
  assert (H0 : forall m : list Z,
             (4 * length (decode_base64 m) <= 3 * length m)%nat)
    by exact decode_length_bound.
  assert (H1 : In ("$"%char, SET_FILE_SIZE) selectors) by (vm_compute; tauto).
  assert (H2 : Forall (fun b => payload_byte b = true) payload)
    by (apply payload_bytes_check; vm_compute; reflexivity).
  assert (H3 : currRecvDataPos s = 0) by reflexivity.
  assert (H4 : Z.of_nat (length payload) <= 2731)
    by (vm_compute; discriminate).
  assert (H5 : Z.of_nat (length (receivedMessage s)) = MESSAGE_MAX_SIZE)
    by (vm_compute; reflexivity).
  destruct (frames_up_to_2731_bytes_are_memory_safe "$"%char SET_FILE_SIZE
              payload s H0 H1 H2 H3 H4 H5) as (_ & Hsafe).
  split; [exact H0|]. split; [exact H1|]. split; [exact H2|].
  split; [exact H3|]. split; [exact H4|]. split; [exact H5 | exact Hsafe].
Defined.

(** X21 at three bytes. *)
Lemma byteArrayToHex_round_trip_witness :
  Forall (fun b => 0 <= b < 256) [1; 171; 255]
  /\ byteArrayToHex [1; 171; 255] = "01ABFF"
  /\ hex_to_bytes (byteArrayToHex [1; 171; 255]) = [1; 171; 255].
Proof.
  assert (H1 : Forall (fun b => 0 <= b < 256) [1; 171; 255])
    by (repeat (apply Forall_cons; split; [lia|]); apply Forall_nil; exact I).
  split; [exact H1|]. split; [reflexivity|].
  exact (byteArrayToHex_round_trip [1; 171; 255] H1).
Defined.

(** X22 at the baud rate 115200. *)
Lemma byteArrayToInt_round_trip_witness :
  0 <= 115200 < 2 ^ 32
  /\ le_bytes32 115200 = [0; 194; 1; 0]
  /\ byteArrayToInt (le_bytes32 115200 ++ [9; 9]) 4 = 115200.
Proof.
  assert (H1 : 0 <= 115200 < 2 ^ 32) by lia.
  split; [exact H1|]. split; [reflexivity|].
  exact (byteArrayToInt_round_trip 115200 [9; 9] H1).
Defined.

(** X23 at a second do-flash after an acknowledged one. *)
Lemma do_flash_without_chunk_witness :
  let done := mock_run [frame "%AQIDBA=="; frame "&"]
                (mock_setup 4194304 healthy) in
  let s := handleSerialMessage [chr endMarker] done in
  state s = DO_FLASH /\ dataLength s = 0
  /\ 0 <= currentFlashOffset s < 2 ^ 32
  /\ currentFlashOffset s = 4
  /\ mock_ops (flash (handleData s)) = [OpWrite 0 [1; 2; 3; 4]; OpWrite 4 []]
  /\ currentFlashOffset (handleData s) = 4.
Proof.
  intros done s.
  assert (H1 : state s = DO_FLASH) by reflexivity.
  assert (H2 : dataLength s = 0) by reflexivity.
  assert (H3 : 0 <= currentFlashOffset s < 2 ^ 32)
    by (vm_compute; split; [discriminate | reflexivity]).
  destruct (do_flash_without_chunk s H1 H2 H3) as (Hdev & Hok).
  destruct (Hok ltac:(vm_compute; reflexivity)) as (Hcur & _).
  split; [exact H1|]. split; [exact H2|]. split; [exact H3|].
  split; [reflexivity|]. split; [rewrite Hdev; reflexivity|].
  rewrite Hcur. reflexivity.
Defined.
